(** * Flash CodeShell: weight-sharding loader, attention module and model head

    A shallow embedding of
    [server/text_generation_server/models/custom_modeling/flash_shell_modeling.py]
    and [server/text_generation_server/models/flash_shell.py].

    Python integers are [Z]; a Python call that may raise is a [result];
    tensors are lists of integers with their shape; the paged key/value
    cache is a finite map from slot index to the vector stored there. *)

From Stdlib Require Import ZArith QArith Lia String Ascii DecimalString.
From Stdlib Require DecimalZ DecimalPos.
From stdpp Require Import base tactics option list numbers gmap strings.

Local Open Scope Z_scope.

(** ** Python values and exceptions *)

Module Py.

(** The exception classes the two source files can raise, directly or
    through the interpreter and torch. *)
Inductive exn : Set :=
| ZeroDivisionError
| ValueError
| AssertionError
| RuntimeError
| TypeError
| IndexError
| NotImplementedError.

Inductive result (A : Type) : Type :=
| Ok (a : A)
| Raise (e : exn).
Global Arguments Ok {A} a.
Global Arguments Raise {A} e.

Global Instance result_ret : MRet result := fun A a => Ok a.
Global Instance result_bind : MBind result := fun A B f m =>
  match m with
  | Ok a => f a
  | Raise e => Raise e
  end.

Global Instance result_fmap : FMap result := fun A B f m =>
  match m with
  | Ok a => Ok (f a)
  | Raise e => Raise e
  end.

Definition is_ok {A} (r : result A) : bool :=
  match r with Ok _ => true | Raise _ => false end.

Definition raises {A} (r : result A) : Prop := exists e, r = Raise e.

(** [a // b] on ints: floor division, [ZeroDivisionError] on a zero divisor. *)
Definition floordiv (a b : Z) : result Z :=
  if decide (b = 0) then Raise ZeroDivisionError else Ok (a `div` b).

(** [a % b] on ints: the sign of the result follows the divisor. *)
Definition mod_ (a b : Z) : result Z :=
  if decide (b = 0) then Raise ZeroDivisionError else Ok (a `mod` b).

(** [assert b] *)
Definition assert (b : bool) : result unit :=
  if b then Ok tt else Raise AssertionError.

(** Index of a slice bound in a sequence of length [len]: a negative
    bound counts from the end, and every bound is clamped to the
    sequence. *)
Definition slice_index (len i : Z) : Z :=
  if i <? 0 then Z.max 0 (i + len) else Z.min i len.

Definition slice_len (len : nat) (start stop : Z) : nat :=
  Z.to_nat (slice_index (Z.of_nat len) stop - slice_index (Z.of_nat len) start).

(** [l[start:stop]] *)
Definition slice {A} (l : list A) (start stop : Z) : list A :=
  take (slice_len (length l) start stop)
       (drop (Z.to_nat (slice_index (Z.of_nat (length l)) start)) l).

(** [s.startswith(p)] *)
Fixpoint startswith (s p : string) {struct p} : bool :=
  match p with
  | EmptyString => true
  | String c p' =>
      match s with
      | EmptyString => false
      | String d s' => if Ascii.eqb d c then startswith s' p' else false
      end
  end.

End Py.
Import Py.

(** ** Tensors *)

(** A tensor of rank one or two.  The elements are the stored values; the
    loader only moves them around.  A matrix keeps its column count next
    to its rows, so that a matrix without rows still has a shape. *)
Inductive tensor : Type :=
| Vec (v : list Z)
| Mat (ncols : nat) (rows : list (list Z)).

Definition wf_tensor (t : tensor) : Prop :=
  match t with
  | Vec _ => True
  | Mat c rows => Forall (fun r => length r = c) rows
  end.

(** [t[start:stop]]: a slice along the first axis. *)
Definition slice_dim0 (t : tensor) (start stop : Z) : tensor :=
  match t with
  | Vec v => Vec (slice v start stop)
  | Mat c rows => Mat c (slice rows start stop)
  end.

(** [t[:, start:stop]]: a slice along the second axis; a vector has none. *)
Definition slice_dim1 (t : tensor) (start stop : Z) : result tensor :=
  match t with
  | Vec _ => Raise IndexError
  | Mat c rows =>
      Ok (Mat (slice_len c start stop) (map (fun r => slice r start stop) rows))
  end.

(** [torch.cat([a, b], dim=0)]: the sizes must match in every dimension
    but the first. *)
Definition cat2 (a b : tensor) : result tensor :=
  match a, b with
  | Vec x, Vec y => Ok (Vec (x ++ y))
  | Mat c x, Mat c' y =>
      if decide (c = c') then Ok (Mat c (x ++ y)) else Raise RuntimeError
  | _, _ => Raise RuntimeError
  end.

(** [torch.cat(ts, dim=0)] *)
Fixpoint torch_cat0 (ts : list tensor) : result tensor :=
  match ts with
  | [] => Raise RuntimeError
  | t :: ts' =>
      match ts' with
      | [] => Ok t
      | _ :: _ => r ← torch_cat0 ts'; cat2 t r
      end
  end.

(** [t.T] *)
Fixpoint column (rows : list (list Z)) (j : nat) : list Z :=
  match rows with
  | [] => []
  | r :: rows' =>
      match r !! j with
      | Some x => x :: column rows' j
      | None => column rows' j
      end
  end.

Definition transpose_T (t : tensor) : tensor :=
  match t with
  | Vec v => Vec v
  | Mat c rows => Mat (length rows) (map (column rows) (seq 0 c))
  end.

Definition tensor_map (f : Z -> Z) (t : tensor) : tensor :=
  match t with
  | Vec v => Vec (map f v)
  | Mat c rows => Mat c (map (map f) rows)
  end.

(** ** Configuration *)

Module Cfg.

(** The attributes a checkpoint's [config.json] supplies beyond the named
    parameters of [ShellConfig.__init__]; [PretrainedConfig.__init__]
    stores them on the object as they come. *)
Record PretrainedKwargs := {
  kw_architectures : option (list string);
  kw_num_query_groups : Z;
  kw_activation_function : string;
  kw_n_embd : Z;
  kw_layer_norm_epsilon : Q;
}.

(** The named parameters of [ShellConfig.__init__]. *)
Record ShellConfigArgs := {
  arg_vocab_size : Z;
  arg_hidden_size : Z;
  arg_intermediate_size : Z;
  arg_num_hidden_layers : Z;
  arg_num_attention_heads : Z;
  arg_num_key_value_heads : option Z;
  arg_hidden_act : string;
  arg_max_position_embeddings : Z;
  arg_initializer_range : Q;
  arg_rms_norm_eps : Q;
  arg_use_cache : bool;
  arg_pad_token_id : Z;
  arg_bos_token_id : Z;
  arg_eos_token_id : Z;
  arg_pretraining_tp : Z;
  arg_tie_word_embeddings : bool;
  arg_rope_scaling : option string;
  arg_rope_theta : Q;
}.

(** The defaults of the signature. *)
Definition ShellConfig_defaults : ShellConfigArgs := {|
  arg_vocab_size := 70144;
  arg_hidden_size := 4096;
  arg_intermediate_size := 16384;
  arg_num_hidden_layers := 42;
  arg_num_attention_heads := 32;
  arg_num_key_value_heads := None;
  arg_hidden_act := "gelu_pytorch_tanh";
  arg_max_position_embeddings := 8192;
  arg_initializer_range := (2 # 100)%Q;
  arg_rms_norm_eps := (1 # 1000000)%Q;
  arg_use_cache := true;
  arg_pad_token_id := 70000;
  arg_bos_token_id := 70000;
  arg_eos_token_id := 70000;
  arg_pretraining_tp := 1;
  arg_tie_word_embeddings := false;
  arg_rope_scaling := None;
  arg_rope_theta := (10000 # 1)%Q;
|}.

Record ShellConfig := {
  vocab_size : Z;
  max_position_embeddings : Z;
  hidden_size : Z;
  intermediate_size : Z;
  num_hidden_layers : Z;
  num_attention_heads : Z;
  num_key_value_heads : Z;
  hidden_act : string;
  initializer_range : Q;
  rms_norm_eps : Q;
  pretraining_tp : Z;
  use_cache : bool;
  rope_scaling : option string;
  rope_theta : Q;
  (* set by [super().__init__] *)
  pad_token_id : Z;
  bos_token_id : Z;
  eos_token_id : Z;
  tie_word_embeddings : bool;
  kwargs : PretrainedKwargs;
}.

(** [ShellConfig.__init__] *)
Definition ShellConfig_init (a : ShellConfigArgs) (kw : PretrainedKwargs)
  : ShellConfig :=
  let num_attention_heads := arg_num_attention_heads a in
  (* for backward compatibility *)
  let num_key_value_heads :=
    match arg_num_key_value_heads a with
    | None => num_attention_heads
    | Some n => n
    end in
  {| vocab_size := arg_vocab_size a;
     max_position_embeddings := arg_max_position_embeddings a;
     hidden_size := arg_hidden_size a;
     intermediate_size := arg_intermediate_size a;
     num_hidden_layers := arg_num_hidden_layers a;
     num_attention_heads := num_attention_heads;
     num_key_value_heads := num_key_value_heads;
     hidden_act := arg_hidden_act a;
     initializer_range := arg_initializer_range a;
     rms_norm_eps := arg_rms_norm_eps a;
     pretraining_tp := arg_pretraining_tp a;
     use_cache := arg_use_cache a;
     rope_scaling := arg_rope_scaling a;
     rope_theta := arg_rope_theta a;
     pad_token_id := arg_pad_token_id a;
     bos_token_id := arg_bos_token_id a;
     eos_token_id := arg_eos_token_id a;
     tie_word_embeddings := arg_tie_word_embeddings a;
     kwargs := kw |}.

(** The configuration object once [FlashShell.__init__] has overwritten
    three of its attributes and attached the runtime ones. *)
Record Config := {
  shell : ShellConfig;
  quantize : option string;
  transpose : bool;
  device : string;
  use_medusa : option string;
}.

(** [config.architectures[0]] *)
Definition first_architecture (kw : PretrainedKwargs) : result string :=
  match kw_architectures kw with
  | None => Raise TypeError
  | Some [] => Raise IndexError
  | Some (a :: _) => Ok a
  end.

(** [FlashShell.__init__], from [ShellConfig.from_pretrained] (whose result
    is [loaded]) to the last assignment on [config]. *)
Definition FlashShell_configure (loaded : ShellConfig) (quantize_ : option string)
    (device_ : string) (use_medusa_ : option string) : result Config :=
  let kw := kwargs loaded in
  let config1 := {|
    vocab_size := vocab_size loaded;
    max_position_embeddings := max_position_embeddings loaded;
    hidden_size := hidden_size loaded;
    intermediate_size := kw_n_embd kw;
    num_hidden_layers := num_hidden_layers loaded;
    num_attention_heads := num_attention_heads loaded;
    num_key_value_heads := kw_num_query_groups kw;
    hidden_act := kw_activation_function kw;
    initializer_range := initializer_range loaded;
    rms_norm_eps := rms_norm_eps loaded;
    pretraining_tp := pretraining_tp loaded;
    use_cache := use_cache loaded;
    rope_scaling := rope_scaling loaded;
    rope_theta := rope_theta loaded;
    pad_token_id := pad_token_id loaded;
    bos_token_id := bos_token_id loaded;
    eos_token_id := eos_token_id loaded;
    tie_word_embeddings := tie_word_embeddings loaded;
    kwargs := kw |} in
  arch ← first_architecture kw;
  Ok {| shell := config1;
        quantize := quantize_;
        transpose := startswith arch "GPT2";
        device := device_;
        use_medusa := use_medusa_ |}.

End Cfg.
Import Cfg.

(** ** The weight source and the layers built from it *)

Record ProcessGroup := {
  pg_rank : Z;
  pg_size : Z;
}.

(** What [get_multi_weights_row] hands to [get_linear]: a dense tensor, or
    for a quantized checkpoint the pack of tensors of that scheme. *)
Inductive weight : Type :=
| Dense (t : tensor)
| Packed (parts : list tensor).

(** The [Weights] object of [text_generation_server.utils]: the methods the
    two files call, as the object offers them.  [to_dtype] is what
    [.to(dtype=weights.dtype)] does to one element; moving to
    [weights.device] leaves the values alone. *)
Record Weights := {
  process_group : ProcessGroup;
  _get_slice : string -> result tensor;
  get_tensor : string -> result tensor;
  get_sharded : string -> Z -> result tensor;
  get_multi_weights_row : string -> option string -> result weight;
  dtype : string;
  to_dtype : Z -> Z;
  weights_device : string;
}.

Definition tensor_to (weights : Weights) (t : tensor) : tensor :=
  tensor_map (to_dtype weights) t.

(** [get_linear(weight, bias, quantize)]: the layer, represented by what it
    is built from. *)
Record Linear := {
  lin_weight : weight;
  lin_bias : option tensor;
  lin_quantize : option string;
}.

Definition get_linear (w : weight) (b : option tensor) (q : option string)
  : Linear :=
  {| lin_weight := w; lin_bias := b; lin_quantize := q |}.

Inductive ColumnLinear : Type :=
| TensorParallelColumnLinear (linear : Linear).

Inductive RowLinear : Type :=
| TensorParallelRowLinear (linear : Linear) (pg : ProcessGroup).

Definition column_linear (l : ColumnLinear) : Linear :=
  match l with TensorParallelColumnLinear linear => linear end.

Definition row_linear (l : RowLinear) : Linear :=
  match l with TensorParallelRowLinear linear _ => linear end.

(** ** The weight-sharding loader *)

(** The slice bounds of [_load_attention]: its statements from the first
    [assert] to [v_stop]. *)
Record qkv_bounds := {
  q_start : Z; q_stop : Z;
  k_start : Z; k_stop : Z;
  v_start : Z; v_stop : Z;
}.

Definition attention_bounds (q_size kv_size world_size rank : Z)
  : result qkv_bounds :=
  r ← mod_ q_size world_size;
  _ ← assert (r =? 0);
  q_block_size ← floordiv q_size world_size;
  let q_start := rank * q_block_size in
  let q_stop := (rank + 1) * q_block_size in

  r ← mod_ kv_size world_size;
  _ ← assert (r =? 0);
  kv_block_size ← floordiv kv_size world_size;
  let offset := q_size in
  let k_start := offset + rank * kv_block_size in
  let k_stop := offset + (rank + 1) * kv_block_size in

  let offset := q_size + kv_size in
  let v_start := offset + rank * kv_block_size in
  let v_stop := offset + (rank + 1) * kv_block_size in
  Ok {| q_start := q_start; q_stop := q_stop;
        k_start := k_start; k_stop := k_stop;
        v_start := v_start; v_stop := v_stop |}.

(** [_load_attention] *)
Definition _load_attention (config : Config) (prefix : string)
    (weights : Weights) (bias : bool) (q_size kv_size : Z)
  : result ColumnLinear :=
  slice_ ← _get_slice weights (prefix +:+ ".c_attn.weight");
  let world_size := pg_size (process_group weights) in
  let rank := pg_rank (process_group weights) in

  b ← attention_bounds q_size kv_size world_size rank;

  qkv ← (if transpose config then
           q_tensor ← slice_dim1 slice_ (q_start b) (q_stop b);
           k_tensor ← slice_dim1 slice_ (k_start b) (k_stop b);
           v_tensor ← slice_dim1 slice_ (v_start b) (v_stop b);
           Ok [q_tensor; k_tensor; v_tensor]
         else
           Ok [slice_dim0 slice_ (q_start b) (q_stop b);
               slice_dim0 slice_ (k_start b) (k_stop b);
               slice_dim0 slice_ (v_start b) (v_stop b)]);

  weight ← torch_cat0 qkv;
  bias ← (if bias then
            slice_ ← _get_slice weights (prefix +:+ ".c_attn.bias");
            t ← torch_cat0 [slice_dim0 slice_ (q_start b) (q_stop b);
                            slice_dim0 slice_ (k_start b) (k_stop b);
                            slice_dim0 slice_ (v_start b) (v_stop b)];
            Ok (Some t)
          else Ok None);

  let weight := tensor_to weights weight in
  let bias := tensor_to weights <$> bias in
  Ok (TensorParallelColumnLinear (get_linear (Dense weight) bias (quantize config))).

(** [load_attention].  In the [gptq] branch the exception object is built
    and dropped: there is no [raise], and the function falls off its end,
    returning [None]. *)
Definition load_attention (config : Config) (prefix : string)
    (weights : Weights) (bias : bool) (q_size kv_size : Z)
  : result (option ColumnLinear) :=
  if decide (quantize config = Some "gptq") then
    let _ := NotImplementedError in
    Ok None
  else
    l ← _load_attention config prefix weights bias q_size kv_size;
    Ok (Some l).

(** [load_row] *)
Definition load_row (config : Config) (prefix : string) (weights : Weights)
    (bias : bool) : result RowLinear :=
  weight ← (if transpose config then
              w ← get_sharded weights (prefix +:+ ".weight") 0;
              Ok (Dense (transpose_T w))
            else
              get_multi_weights_row weights prefix (quantize config));
  bias ← (if bias && (pg_rank (process_group weights) =? 0) then
            (* Rank is only on the first rank process *)
            b ← get_tensor weights (prefix +:+ ".bias");
            Ok (Some b)
          else Ok None);
  Ok (TensorParallelRowLinear (get_linear weight bias (quantize config))
        (process_group weights)).


(** ** The attention module *)

(** [PositionRotaryEmbedding.static(config, dim, base, device)], kept as the
    arguments it is built from. *)
Record Rotary := {
  rot_dim : Z;
  rot_base : Q;
  rot_scaling : option string;
  rot_device : string;
}.

(** [head_size ** -0.5], kept symbolic: the float is never inspected. *)
Inductive scale : Type :=
| InvSqrt (head_size : Z).

(** [n ** -0.5] on an int: zero cannot be raised to a negative power. *)
Definition pow_neg_half (n : Z) : result scale :=
  if decide (n = 0) then Raise ZeroDivisionError else Ok (InvSqrt n).

(** [torch.arange(0, n, dtype=torch.int32)] *)
Definition torch_arange (n : Z) : result (list Z) :=
  if n <? 0 then Raise RuntimeError
  else Ok (Z.of_nat <$> seq 0 (Z.to_nat n)).

(** [t.repeat_interleave(k)] on a vector: every element [k] times, in place. *)
Definition repeat_interleave (t : list Z) (k : Z) : result (list Z) :=
  if k <? 0 then Raise RuntimeError
  else Ok (x ← t; replicate (Z.to_nat k) x).

(** ** Kernels and library layers

    The forward passes of the library layers and the attention kernels live
    outside the two files; a model is run against an implementation of this
    interface. *)

Record FastLayerNorm := {
  ln_weight : tensor;
  ln_bias : tensor;
  ln_eps : Q;
}.

Record TensorParallelEmbedding := {
  emb_weight : tensor;
  emb_reduce : bool;
}.

Record TensorParallelHead := {
  head_linear : Linear;
  head_pg : ProcessGroup;
  head_should_gather : bool;
}.

Class Kernels := {
  (* [TensorParallelColumnLinear.forward] *)
  column_forward : ColumnLinear -> tensor -> tensor;
  (* [TensorParallelRowLinear.forward], with its all-reduce *)
  row_forward : RowLinear -> tensor -> tensor;
  (* [PositionRotaryEmbedding.get_cos_sin] *)
  get_cos_sin : Rotary -> tensor -> Z -> tensor * tensor;
  (* [PositionRotaryEmbedding.forward]: the rotated query and key *)
  rotary : Rotary -> tensor -> tensor -> tensor -> tensor -> tensor * tensor;
  (* [flash_attn.attention]: what it leaves in the output tensor *)
  flash_attention :
    tensor -> tensor -> tensor -> tensor -> Z -> scale -> tensor;
  (* [paged_attention.attention]: what it leaves in the output tensor *)
  paged_attention :
    tensor -> gmap Z (list Z) -> gmap Z (list Z) -> list Z -> scale ->
    tensor -> tensor -> Z -> tensor;
  (* [FastLayerNorm.forward]: the normed states and the new residual *)
  layer_norm : FastLayerNorm -> tensor -> option tensor -> tensor * tensor;
  (* [self.act] of the feed-forward block *)
  activation : string -> tensor -> tensor;
  (* [TensorParallelEmbedding.forward] *)
  embedding : TensorParallelEmbedding -> list Z -> tensor;
  (* [TensorParallelHead.forward] *)
  head_forward : TensorParallelHead -> tensor -> tensor;
}.

Module Attn.

Record t := {
  num_heads : Z;
  hidden_size : Z;
  head_size : Z;
  rotary_emb : Rotary;
  softmax_scale : scale;
  num_key_value_heads : Z;
  query_key_value : option ColumnLinear;
  o_proj : RowLinear;
  num_groups : Z;
  kv_head_mapping : list Z;
}.

(** The last statements of [__init__]: group count and head mapping from
    the per-shard head counts. *)
Definition build_kv_head_mapping (num_heads_ num_key_value_heads_ : Z)
  : result (Z * list Z) :=
  num_groups_ ← floordiv num_heads_ num_key_value_heads_;
  r ← torch_arange num_key_value_heads_;
  m ← repeat_interleave r num_groups_;
  Ok (num_groups_, m).

(** [FlashShellAttention.__init__] *)
Definition init (prefix : string) (config : Config) (weights : Weights)
  : result t :=
  let num_heads_ := Cfg.num_attention_heads (shell config) in
  let hidden_size_ := Cfg.hidden_size (shell config) in
  head_size_ ← floordiv hidden_size_ num_heads_;

  let rotary_emb_ := {|
    rot_dim := head_size_;
    rot_base := Cfg.rope_theta (shell config);
    rot_scaling := Cfg.rope_scaling (shell config);
    rot_device := weights_device weights |} in

  softmax_scale_ ← pow_neg_half head_size_;

  r ← mod_ num_heads_ (pg_size (process_group weights));
  if negb (r =? 0) then Raise ValueError else
  num_heads_ ← floordiv num_heads_ (pg_size (process_group weights));
  num_key_value_heads_ ←
    floordiv (Cfg.num_key_value_heads (shell config))
             (pg_size (process_group weights));

  let q_size := Cfg.num_attention_heads (shell config) * head_size_ in
  let kv_size := Cfg.num_key_value_heads (shell config) * head_size_ in
  query_key_value_ ← load_attention config prefix weights true q_size kv_size;

  o_proj_ ← load_row config (prefix +:+ ".c_proj") weights true;
  gm ← build_kv_head_mapping num_heads_ num_key_value_heads_;
  Ok {| num_heads := num_heads_;
        hidden_size := hidden_size_;
        head_size := head_size_;
        rotary_emb := rotary_emb_;
        softmax_scale := softmax_scale_;
        num_key_value_heads := num_key_value_heads_;
        query_key_value := query_key_value_;
        o_proj := o_proj_;
        num_groups := gm.1;
        kv_head_mapping := gm.2 |}.

(** *** Forward *)

(** One layer's paged cache: the key buffer and the value buffer, each
    addressed by slot index, and the kernels launched so far. *)
Inductive kernel_call : Type :=
| ReshapeAndCache (slots : list Z)
| FlashAttention (cu_seqlens : tensor)
| PagedAttention (block_tables : tensor).

Record state := {
  key_cache : gmap Z (list Z);
  value_cache : gmap Z (list Z);
  calls : list kernel_call;
}.

(** [t.split([a, b], dim=1)]: the two sizes must add up to the width. *)
Definition split_dim1 (x : tensor) (a b : Z) : result (tensor * tensor) :=
  match x with
  | Vec _ => Raise IndexError
  | Mat c rows =>
      if (a <? 0) || (b <? 0) || negb (a + b =? Z.of_nat c)
      then Raise RuntimeError
      else Ok (Mat (Z.to_nat a) (take (Z.to_nat a) <$> rows),
               Mat (Z.to_nat b) (drop (Z.to_nat a) <$> rows))
  end.

(** [t.view(-1, d1, .., dk)] of a matrix whose width is [d1 * .. * dk]: the
    storage is shared and the rows stay what they are; the call is refused
    when a size is negative or the inferred size is ambiguous. *)
Definition view_rows (x : tensor) (dims : list Z) : result tensor :=
  if bool_decide (Exists (fun d => d < 0) dims)
     || (foldr Z.mul 1 dims =? 0)
  then Raise RuntimeError
  else Ok x.

Definition rows_of (x : tensor) : list (list Z) :=
  match x with
  | Vec v => [v]
  | Mat _ rows => rows
  end.

(** Modelled from the spec: [paged_attention.reshape_and_cache] is not part
    of these files; it writes the key and the value of every new token into
    the paged cache at the slot index supplied for it. *)
Definition write_slot (c : gmap Z (list Z) * gmap Z (list Z))
    (skv : Z * (list Z * list Z)) : gmap Z (list Z) * gmap Z (list Z) :=
  (<[skv.1 := skv.2.1]> c.1, <[skv.1 := skv.2.2]> c.2).

Definition reshape_and_cache (key value : tensor)
    (kc vc : gmap Z (list Z)) (slots : list Z)
  : gmap Z (list Z) * gmap Z (list Z) :=
  foldl write_slot (kc, vc) (zip slots (zip (rows_of key) (rows_of value))).

Record inputs := {
  hidden_states : tensor;
  cos : tensor;
  sin : tensor;
  cu_seqlen_prefill : option tensor;
  block_tables : tensor;
  slots : list Z;
  input_lengths : tensor;
  max_s : Z;
}.

Section Forward.

Context `{Kernels}.

(** [FlashShellAttention.forward] *)
Definition forward (self : t) (x : inputs) (st : state)
  : result (tensor * state) :=
  layer ← match query_key_value self with
          | Some l => Ok l
          | None => Raise TypeError
          end;
  let qkv := column_forward layer (hidden_states x) in
  qs ← split_dim1 qkv (head_size self * num_heads self)
                      (2 * head_size self * num_key_value_heads self);
  query ← view_rows qs.1 [num_heads self; head_size self];
  kv ← view_rows qs.2 [2; num_key_value_heads self; head_size self];
  kvs ← split_dim1 kv (num_key_value_heads self * head_size self)
                      (num_key_value_heads self * head_size self);

  let qk := rotary (rotary_emb self) query kvs.1 (cos x) (sin x) in
  let query := qk.1 in
  let key := qk.2 in
  let value := kvs.2 in

  let c := reshape_and_cache key value (key_cache st) (value_cache st) (slots x) in
  let st := {| key_cache := c.1; value_cache := c.2;
               calls := calls st ++ [ReshapeAndCache (slots x)] |} in

  let '(attn_output, st) :=
    match cu_seqlen_prefill x with
    | Some cu =>
        (* Prefill *)
        (flash_attention query key value cu (max_s x) (softmax_scale self),
         {| key_cache := key_cache st; value_cache := value_cache st;
            calls := calls st ++ [FlashAttention cu] |})
    | None =>
        (* Decode *)
        (paged_attention query (key_cache st) (value_cache st)
           (kv_head_mapping self) (softmax_scale self)
           (block_tables x) (input_lengths x) (max_s x),
         {| key_cache := key_cache st; value_cache := value_cache st;
            calls := calls st ++ [PagedAttention (block_tables x)] |})
    end in

  out ← view_rows attn_output [num_heads self * head_size self];
  Ok (row_forward (o_proj self) out, st).

End Forward.

End Attn.

(** ** Feed-forward block, layer, model stack and head *)

Module MLP.

Record t := {
  act : string;
  gate_up_proj : ColumnLinear;
  down_proj : RowLinear;
  intermediate_size : Z;
}.

(** [ShellMLP.forward] *)
Definition forward `{Kernels} (self : t) (hidden_states : tensor) : tensor :=
  let hidden_states := column_forward (gate_up_proj self) hidden_states in
  let hidden_states := activation (act self) hidden_states in
  let hidden_states := row_forward (down_proj self) hidden_states in
  hidden_states.

End MLP.

Module Layer.

Record t := {
  self_attn : Attn.t;
  mlp : MLP.t;
  input_layernorm : FastLayerNorm;
  post_attention_layernorm : FastLayerNorm;
}.

(** [FlashShellLayer.forward] *)
Definition forward `{Kernels} (self : t) (hidden_states : tensor)
    (residual : option tensor) (cos sin : tensor)
    (cu_seqlen_prefill : option tensor) (kv_cache : Attn.state)
    (block_tables : tensor) (slots : list Z) (input_lengths : tensor)
    (max_s : Z)
  : result (tensor * tensor * Attn.state) :=
  let '(normed_hidden_states, res) :=
    layer_norm (input_layernorm self) hidden_states residual in

  (* Self Attention *)
  '(attn_output, kv_cache) ←
    Attn.forward (self_attn self)
      {| Attn.hidden_states := normed_hidden_states;
         Attn.cos := cos;
         Attn.sin := sin;
         Attn.cu_seqlen_prefill := cu_seqlen_prefill;
         Attn.block_tables := block_tables;
         Attn.slots := slots;
         Attn.input_lengths := input_lengths;
         Attn.max_s := max_s |}
      kv_cache;

  (* faster post attention rms norm *)
  let '(normed_attn_res_output, attn_res) :=
    layer_norm (post_attention_layernorm self) attn_output (Some res) in

  let mlp_output := MLP.forward (mlp self) normed_attn_res_output in

  Ok (mlp_output, attn_res, kv_cache).

End Layer.

Module Model.

Record t := {
  tp_rank : Z;
  tp_world_size : Z;
  embed_tokens : TensorParallelEmbedding;
  layers : list Layer.t;
  norm : FastLayerNorm;
}.

(** The arguments of the forward entry point; [kv_cache] holds one cache
    per layer. *)
Record inputs := {
  input_ids : list Z;
  position_ids : tensor;
  cu_seqlen_prefill : option tensor;
  kv_cache : list Attn.state;
  block_tables : tensor;
  slots : list Z;
  input_lengths : tensor;
  max_s : Z;
}.

(** The loop over [enumerate(self.layers)]: the caches of the layers already
    run are collected in [done]. *)
Fixpoint run_layers `{Kernels} (ls : list Layer.t) (i : nat) (x : inputs)
    (cos sin : tensor) (hidden_states : tensor) (residual : option tensor)
    (done : list Attn.state)
  : result (tensor * option tensor * list Attn.state) :=
  match ls with
  | [] => Ok (hidden_states, residual, done)
  | layer :: ls' =>
      cache ← match kv_cache x !! i with
              | Some c => Ok c
              | None => Raise IndexError
              end;
      '(hidden_states, residual, cache) ←
        Layer.forward layer hidden_states residual cos sin
          (cu_seqlen_prefill x) cache (block_tables x) (slots x)
          (input_lengths x) (max_s x);
      run_layers ls' (S i) x cos sin hidden_states (Some residual)
        (done ++ [cache])
  end.

(** [FlashShellModel.forward]: the final hidden states and the caches as the
    layers leave them. *)
Definition forward `{Kernels} (self : t) (x : inputs)
  : result (tensor * list Attn.state) :=
  let hidden_states := embedding (embed_tokens self) (input_ids x) in

  (* Get rotary cos and sin for this forward *)
  layer0 ← match layers self with
           | l :: _ => Ok l
           | [] => Raise IndexError
           end;
  let '(cos, sin) :=
    get_cos_sin (Attn.rotary_emb (Layer.self_attn layer0))
      (position_ids x) (max_s x) in

  '(hidden_states, residual, caches) ←
    run_layers (layers self) 0 x cos sin hidden_states None [];

  let '(hidden_states, _) := layer_norm (norm self) hidden_states residual in
  Ok (hidden_states, caches ++ drop (length (layers self)) (kv_cache x)).

End Model.

Module CausalLM.

Record t := {
  config : Config;
  model : Model.t;
  lm_head : TensorParallelHead;
}.

(** [rows[i]] for one index of an index tensor: a negative index counts
    from the end, an index outside the rows is an error. *)
Definition index_row (rows : list (list Z)) (i : Z) : result (list Z) :=
  let n := Z.of_nat (length rows) in
  if (i <? - n) || (n <=? i) then Raise IndexError
  else
    match rows !! Z.to_nat (if i <? 0 then i + n else i) with
    | Some r => Ok r
    | None => Raise IndexError
    end.

(** [hidden_states[lm_head_indices]] with a vector of indices: the rows at
    these indices, in the order of the indices. *)
Definition index_select (hidden_states : tensor) (indices : list Z)
  : result tensor :=
  match hidden_states with
  | Vec v =>
      xs ← mapM (index_row ((fun x => [x]) <$> v)) indices;
      Ok (Vec (concat xs))
  | Mat c rows =>
      rs ← mapM (index_row rows) indices;
      Ok (Mat c rs)
  end.

(** [FlashShellForCausalLM.forward] *)
Definition forward `{Kernels} (self : t) (x : Model.inputs)
    (lm_head_indices : option (list Z))
  : result (tensor * list Attn.state) :=
  '(hidden_states, caches) ← Model.forward (model self) x;
  hidden_states ← match lm_head_indices with
                  | Some indices => index_select hidden_states indices
                  | None => Ok hidden_states
                  end;
  let logits := head_forward (lm_head self) hidden_states in
  Ok (logits, caches).

End CausalLM.

(** ** Reference definitions

    What the specification says the loader and the layers do, in its own
    words; the theorems below compare the code with these. *)

(** The ranks of a process group of [world_size] shards. *)
Definition ranks (world_size : Z) : list Z :=
  Z.of_nat <$> seq 0 (Z.to_nat world_size).

(** The same weight source seen from shard [rank]. *)
Definition at_rank (weights : Weights) (rank : Z) : Weights :=
  {| process_group := {| pg_rank := rank;
                         pg_size := pg_size (process_group weights) |};
     _get_slice := _get_slice weights;
     get_tensor := get_tensor weights;
     get_sharded := get_sharded weights;
     get_multi_weights_row := get_multi_weights_row weights;
     dtype := dtype weights;
     to_dtype := to_dtype weights;
     weights_device := weights_device weights |}.

(** The segment of [len] entries that starts at [offset]. *)
Definition segment {A} (l : list A) (offset len : Z) : list A :=
  take (Z.to_nat len) (drop (Z.to_nat offset) l).

(** Entries [[r*block, (r+1)*block)] of a segment. *)
Definition shard_block {A} (seg : list A) (r block : Z) : list A :=
  take (Z.to_nat block) (drop (Z.to_nat (r * block)) seg).

(** The query, key and value parts of one shard's fused rows. *)
Definition q_part {A} (q_block kv_block : Z) (shard : list A) : list A :=
  segment shard 0 q_block.
Definition k_part {A} (q_block kv_block : Z) (shard : list A) : list A :=
  segment shard q_block kv_block.
Definition v_part {A} (q_block kv_block : Z) (shard : list A) : list A :=
  segment shard (q_block + kv_block) kv_block.

(** Concatenation across all shards: the query blocks, then the key
    blocks, then the value blocks. *)
Definition reassemble {A} (q_block kv_block : Z) (shards : list (list A))
  : list A :=
  concat (q_part q_block kv_block <$> shards)
  ++ concat (k_part q_block kv_block <$> shards)
  ++ concat (v_part q_block kv_block <$> shards).

(** The rows (a matrix) or entries (a vector) of a loaded layer's weight
    and bias. *)
Definition weight_rows (l : ColumnLinear) : list (list Z) :=
  match lin_weight (column_linear l) with
  | Dense (Mat _ rows) => rows
  | _ => []
  end.

Definition bias_entries (l : ColumnLinear) : list Z :=
  match lin_bias (column_linear l) with
  | Some (Vec v) => v
  | _ => []
  end.

(** What shard [r] of [world_size] holds of a fused sequence laid out as
    query segment, key segment, value segment: its block of each. *)
Definition shard_rows {A} (l : list A) (q_size kv_size world_size r : Z)
  : list A :=
  shard_block (segment l 0 q_size) r (q_size `div` world_size)
  ++ shard_block (segment l q_size kv_size) r (kv_size `div` world_size)
  ++ shard_block (segment l (q_size + kv_size) kv_size) r
       (kv_size `div` world_size).



(** Modelled from the spec: the forward pass of [TensorParallelRowLinear]
    is not part of these files.  Every shard adds the bias it carries, if
    any, to its partial product, and the all-reduce sums the shards'
    outputs. *)
Definition add_bias (l : RowLinear) (partial : list Z) : list Z :=
  match lin_bias (row_linear l) with
  | Some (Vec b) => zip_with Z.add partial b
  | _ => partial
  end.

Definition all_reduce (n : nat) (outs : list (list Z)) : list Z :=
  foldr (zip_with Z.add) (replicate n 0) outs.

(** A head projection that works token by token: one row of logits for
    each row of hidden states. *)
Definition per_token (f : tensor -> tensor) (vocab : nat)
    (g : list Z -> list Z) : Prop :=
  forall c rows, f (Mat c rows) = Mat vocab (g <$> rows).

Definition nrows (x : tensor) : nat :=
  match x with
  | Vec v => length v
  | Mat _ rows => length rows
  end.

(** ** A small weight source and integer kernels

    Stand-ins for the collaborators, so that the code can be run on
    concrete inputs. *)

Module Toy.

Fixpoint lookup_name (store : list (string * tensor)) (name : string)
  : result tensor :=
  match store with
  | [] => Raise RuntimeError
  | (k, v) :: store' =>
      if decide (k = name) then Ok v else lookup_name store' name
  end.

(** Modelled from the spec: [Weights.get_sharded] is not part of these
    files; a shard holds a contiguous slice of the dimension asked for,
    which the shard count must divide. *)
Definition sharded (store : list (string * tensor)) (rank world_size : Z)
    (name : string) (dim : Z) : result tensor :=
  x ← lookup_name store name;
  let size := match x, dim with
              | Mat c _, 1 => Z.of_nat c
              | _, _ => Z.of_nat (nrows x)
              end in
  r ← mod_ size world_size;
  _ ← assert (r =? 0);
  block ← floordiv size world_size;
  if dim =? 0 then Ok (slice_dim0 x (rank * block) ((rank + 1) * block))
  else slice_dim1 x (rank * block) ((rank + 1) * block).

Definition weights (store : list (string * tensor)) (rank world_size : Z)
  : Weights :=
  {| process_group := {| pg_rank := rank; pg_size := world_size |};
     _get_slice := lookup_name store;
     get_tensor := lookup_name store;
     get_sharded := sharded store rank world_size;
     get_multi_weights_row := fun prefix _ =>
       Dense <$> sharded store rank world_size (prefix +:+ ".weight") 1;
     dtype := "float16";
     to_dtype := fun x => x;
     weights_device := "cuda:0" |}.

Definition dot (x w : list Z) : Z := foldr Z.add 0 (zip_with Z.mul x w).

(** [x @ w.T + b] in exact integer arithmetic. *)
Definition linear (l : Linear) (x : tensor) : tensor :=
  match lin_weight l with
  | Dense (Mat _ wrows) =>
      let b := match lin_bias l with
               | Some (Vec b) => b
               | _ => replicate (length wrows) 0
               end in
      Mat (length wrows)
          ((fun xr => zip_with Z.add ((dot xr) <$> wrows) b) <$> Attn.rows_of x)
  | _ => x
  end.

Definition kernels : Kernels :=
  {| column_forward := fun l x => linear (column_linear l) x;
     row_forward := fun l x => linear (row_linear l) x;
     get_cos_sin := fun _ p _ => (p, p);
     rotary := fun _ q k _ _ => (q, k);
     flash_attention := fun q _ _ _ _ _ => q;
     paged_attention := fun q _ _ _ _ _ _ _ => q;
     layer_norm := fun _ x r => (x, x);
     activation := fun _ x => x;
     embedding := fun _ ids => Mat 1 ((fun i => [i]) <$> ids);
     head_forward := fun h x => linear (head_linear h) x |}.

(** A checkpoint for one attention module under the prefix ["attn"]: a
    fused weight of [fused] rows and an output projection, over a hidden
    size of [hidden]. *)
Definition rows_from (n width : nat) : list (list Z) :=
  (fun i => replicate width (Z.of_nat i)) <$> seq 0 n.

Definition store (fused hidden : nat) : list (string * tensor) :=
  [ ("attn.c_attn.weight", Mat hidden (rows_from fused hidden));
    ("attn.c_attn.bias", Vec (Z.of_nat <$> seq 0 fused));
    ("attn.c_proj.weight", Mat hidden (rows_from hidden hidden));
    ("attn.c_proj.bias", Vec (Z.of_nat <$> seq 0 hidden)) ]%string.

Definition kw (architecture : string) : PretrainedKwargs :=
  {| kw_architectures := Some [architecture];
     kw_num_query_groups := 8;
     kw_activation_function := "gelu_pytorch_tanh";
     kw_n_embd := 4096;
     kw_layer_norm_epsilon := (1 # 100000)%Q |}.

(** A checkpoint in the transposed layout, for two query heads and one
    key/value head of size one over a hidden size of two: the fused weight
    has a row per input feature and the columns query, query, key, value. *)
Definition transposed_store : list (string * tensor) :=
  [ ("attn.c_attn.weight", Mat 4 [[10; 11; 12; 13]; [20; 21; 22; 23]]);
    ("attn.c_attn.bias", Vec [0; 1; 2; 3]);
    ("attn.c_proj.weight", Mat 2 [[1; 2]; [3; 4]]);
    ("attn.c_proj.bias", Vec [0; 1]) ]%string.

(** A configuration with the given head counts and hidden size. *)
Definition config (heads kv_heads hidden : Z) (quantize_ : option string)
    (transpose_ : bool) : Config :=
  {| shell := ShellConfig_init
       {| arg_vocab_size := 32;
          arg_hidden_size := hidden;
          arg_intermediate_size := 4 * hidden;
          arg_num_hidden_layers := 2;
          arg_num_attention_heads := heads;
          arg_num_key_value_heads := Some kv_heads;
          arg_hidden_act := "gelu_pytorch_tanh";
          arg_max_position_embeddings := 8192;
          arg_initializer_range := (2 # 100)%Q;
          arg_rms_norm_eps := (1 # 1000000)%Q;
          arg_use_cache := true;
          arg_pad_token_id := 0;
          arg_bos_token_id := 0;
          arg_eos_token_id := 0;
          arg_pretraining_tp := 1;
          arg_tie_word_embeddings := false;
          arg_rope_scaling := None;
          arg_rope_theta := (10000 # 1)%Q |}
       (kw "CodeShellForCausalLM");
     quantize := quantize_;
     transpose := transpose_;
     device := "cuda:0";
     use_medusa := None |}.

(** Two new tokens to be cached at slots 5 and 9, as a decode step and as
    a prefill. *)
Definition decode_inputs : Attn.inputs :=
  {| Attn.hidden_states := Mat 4 [[1; 0; 0; 0]; [2; 0; 0; 0]];
     Attn.cos := Vec [];
     Attn.sin := Vec [];
     Attn.cu_seqlen_prefill := None;
     Attn.block_tables := Mat 1 [[0]; [1]];
     Attn.slots := [5; 9];
     Attn.input_lengths := Vec [1; 1];
     Attn.max_s := 1 |}.

Definition prefill_inputs : Attn.inputs :=
  {| Attn.hidden_states := Mat 4 [[1; 0; 0; 0]; [2; 0; 0; 0]];
     Attn.cos := Vec [];
     Attn.sin := Vec [];
     Attn.cu_seqlen_prefill := Some (Vec [0; 2]);
     Attn.block_tables := Mat 1 [[0]];
     Attn.slots := [5; 9];
     Attn.input_lengths := Vec [2];
     Attn.max_s := 2 |}.

Definition empty_cache : Attn.state :=
  {| Attn.key_cache := ∅; Attn.value_cache := ∅; Attn.calls := [] |}.

(** The attention module the constructor builds from [store 8 4] on a
    single shard, with two query heads and one key/value head of size two,
    and a one-layer model around it. *)
Definition attention : Attn.t :=
  {| Attn.num_heads := 2;
     Attn.hidden_size := 4;
     Attn.head_size := 2;
     Attn.rotary_emb := {| rot_dim := 2; rot_base := (10000 # 1)%Q;
                           rot_scaling := None; rot_device := "cuda:0" |};
     Attn.softmax_scale := InvSqrt 2;
     Attn.num_key_value_heads := 1;
     Attn.query_key_value :=
       Some (TensorParallelColumnLinear
               (get_linear (Dense (Mat 4 (rows_from 8 4)))
                  (Some (Vec (Z.of_nat <$> seq 0 8))) None));
     Attn.o_proj :=
       TensorParallelRowLinear
         (get_linear (Dense (Mat 4 (rows_from 4 4)))
            (Some (Vec (Z.of_nat <$> seq 0 4))) None)
         {| pg_rank := 0; pg_size := 1 |};
     Attn.num_groups := 2;
     Attn.kv_head_mapping := [0; 0] |}.

Definition layer_norm_params : FastLayerNorm :=
  {| ln_weight := Vec [1; 1; 1; 1]; ln_bias := Vec [0; 0; 0; 0];
     ln_eps := (1 # 100000)%Q |}.

Definition causal_lm : CausalLM.t :=
  {| CausalLM.config := config 2 1 4 None false;
     CausalLM.model :=
       {| Model.tp_rank := 0;
          Model.tp_world_size := 1;
          Model.embed_tokens := {| emb_weight := Mat 4 (rows_from 32 4);
                                   emb_reduce := true |};
          Model.layers :=
            [ {| Layer.self_attn := attention;
                 Layer.mlp :=
                   {| MLP.act := "gelu_pytorch_tanh";
                      MLP.gate_up_proj :=
                        TensorParallelColumnLinear
                          (get_linear (Dense (Mat 4 (rows_from 16 4))) None None);
                      MLP.down_proj :=
                        TensorParallelRowLinear
                          (get_linear (Dense (Mat 16 (rows_from 4 16))) None None)
                          {| pg_rank := 0; pg_size := 1 |};
                      MLP.intermediate_size := 16 |};
                 Layer.input_layernorm := layer_norm_params;
                 Layer.post_attention_layernorm := layer_norm_params |} ];
          Model.norm := layer_norm_params |};
     CausalLM.lm_head :=
       {| head_linear := get_linear (Dense (Mat 4 (rows_from 3 4))) None None;
          head_pg := {| pg_rank := 0; pg_size := 1 |};
          head_should_gather := false |} |}.

(** A prefill of three tokens. *)
Definition model_inputs : Model.inputs :=
  {| Model.input_ids := [3; 4; 5];
     Model.position_ids := Vec [0; 1; 2];
     Model.cu_seqlen_prefill := Some (Vec [0; 3]);
     Model.kv_cache := [empty_cache];
     Model.block_tables := Mat 1 [[0]];
     Model.slots := [5; 9; 11];
     Model.input_lengths := Vec [3];
     Model.max_s := 3 |}.

End Toy.


(** ** Effects of a forward pass on the caches *)

(** The attention kernel a forward call launches. *)
Definition attention_call (cu_seqlen_prefill : option tensor)
    (block_tables : tensor) : Attn.kernel_call :=
  match cu_seqlen_prefill with
  | Some cu => Attn.FlashAttention cu
  | None => Attn.PagedAttention block_tables
  end.

(** One layer's cache after one forward call: a cache write on [slots]
    and one attention call were added, and the slots outside [slots] hold
    what they held. *)
Definition cache_stepped (slots : list Z) (call : Attn.kernel_call)
    (c c' : Attn.state) : Prop :=
  Attn.calls c' = Attn.calls c ++ [Attn.ReshapeAndCache slots; call]
  /\ forall s, s ∉ slots ->
       Attn.key_cache c' !! s = Attn.key_cache c !! s
       /\ Attn.value_cache c' !! s = Attn.value_cache c !! s.

(** ** Constructors of the feed-forward block, the layers and the model *)

(** [str(n)] for an int, as an f-string prints it. *)
Definition py_str (n : Z) : string :=
  DecimalString.NilZero.string_of_int (Z.to_int n).

(** [sub in s] for strings. *)
Fixpoint str_contains (s sub : string) : bool :=
  if startswith s sub then true
  else match s with
       | EmptyString => false
       | String _ s' => str_contains s' sub
       end.

(** What [self.act] of the feed-forward block is: an entry of the
    [ACT2FN] table of [transformers], or [torch.nn.functional.gelu] with
    the given [approximate] argument. *)
Inductive activation_fn : Type :=
| Act2Fn (name : string)
| Gelu (approximate : string).

(** The conditional expression that [ShellMLP.__init__] assigns to
    [self.act]. *)
Definition select_activation (act : string) : activation_fn :=
  if negb (str_contains act "gelu") then Act2Fn act
  else Gelu (if bool_decide (act ∈ ["gelu_fast"; "gelu_pytorch_tanh"]%string)
             then "tanh" else "none").

(** The loaders of [text_generation_server.utils.layers] and the table of
    [transformers.activations], as the constructors call them. *)
Class Loaders := {
  (* [ACT2FN[act]]: fails for a name the table does not have *)
  act2fn_lookup : string -> result unit;
  (* [TensorParallelColumnLinear.load(config, prefix, weights, bias)] *)
  column_load : Config -> string -> Weights -> bool -> result ColumnLinear;
  (* [TensorParallelRowLinear.load(config, prefix, weights, bias)] *)
  row_load : Config -> string -> Weights -> bool -> result RowLinear;
  (* [FastLayerNorm.load(prefix, weights, eps)] *)
  layer_norm_load : string -> Weights -> Q -> result FastLayerNorm;
  (* [TensorParallelEmbedding(prefix, weights, reduce)] *)
  embedding_load : string -> Weights -> bool -> result TensorParallelEmbedding;
  (* [TensorParallelHead.load(config, prefix, weights)] *)
  head_load : Config -> string -> Weights -> result TensorParallelHead;
}.

(** [ShellMLP.__init__] *)
Definition ShellMLP_init `{Loaders} (prefix : string) (config : Config)
    (weights : Weights) : result MLP.t :=
  let act := hidden_act (shell config) in
  _ ← match select_activation act with
      | Act2Fn name => act2fn_lookup name
      | Gelu _ => Ok tt
      end;
  (* Fuse gate and up proj *)
  gate_up_proj ← column_load config (prefix +:+ ".c_fc") weights true;
  down_proj ← row_load config (prefix +:+ ".c_proj") weights true;
  intermediate_size_ ←
    floordiv (Cfg.intermediate_size (shell config))
             (pg_size (process_group weights));
  Ok {| MLP.act := act;
        MLP.gate_up_proj := gate_up_proj;
        MLP.down_proj := down_proj;
        MLP.intermediate_size := intermediate_size_ |}.

(** [FlashShellLayer.__init__] *)
Definition FlashShellLayer_init `{Loaders} (layer_id : Z) (config : Config)
    (weights : Weights) : result Layer.t :=
  let prefix := ("transformer.h." +:+ py_str layer_id)%string in
  self_attn ← Attn.init (prefix +:+ ".attn") config weights;
  mlp ← ShellMLP_init (prefix +:+ ".mlp") config weights;
  input_layernorm ←
    layer_norm_load (prefix +:+ ".ln_1") weights
      (kw_layer_norm_epsilon (kwargs (shell config)));
  post_attention_layernorm ←
    layer_norm_load (prefix +:+ ".ln_2") weights
      (kw_layer_norm_epsilon (kwargs (shell config)));
  Ok {| Layer.self_attn := self_attn;
        Layer.mlp := mlp;
        Layer.input_layernorm := input_layernorm;
        Layer.post_attention_layernorm := post_attention_layernorm |}.

(** The attributes [FlashShellModel.__init__] copies from its first
    layer. *)
Record ModelGeometry := {
  geo_head_size : Z;
  geo_num_heads : Z;
  geo_num_key_value_heads : Z;
}.

(** [FlashShellModel.__init__]; [range(n)] is [ranks n]. *)
Definition FlashShellModel_init `{Loaders} (config : Config)
    (weights : Weights) : result (Model.t * ModelGeometry) :=
  let process_group_ := process_group weights in
  embed_tokens ← embedding_load "transformer.wte" weights true;
  layers ← mapM (fun layer_id => FlashShellLayer_init layer_id config weights)
                (ranks (Cfg.num_hidden_layers (shell config)));
  norm ← layer_norm_load "transformer.ln_f" weights
           (kw_layer_norm_epsilon (kwargs (shell config)));
  layer0 ← match layers with
           | l :: _ => Ok l
           | [] => Raise IndexError
           end;
  Ok ({| Model.tp_rank := pg_rank process_group_;
         Model.tp_world_size := pg_size process_group_;
         Model.embed_tokens := embed_tokens;
         Model.layers := layers;
         Model.norm := norm |},
      {| geo_head_size := Attn.head_size (Layer.self_attn layer0);
         geo_num_heads := Attn.num_heads (Layer.self_attn layer0);
         geo_num_key_value_heads :=
           Attn.num_key_value_heads (Layer.self_attn layer0) |}).

(** [FlashShellForCausalLM.__init__] *)
Definition FlashShellForCausalLM_init `{Loaders} (config : Config)
    (weights : Weights) : result (CausalLM.t * ModelGeometry) :=
  '(model, geometry) ← FlashShellModel_init config weights;
  lm_head ← head_load config "transformer.wte" weights;
  Ok ({| CausalLM.config := config;
         CausalLM.model := model;
         CausalLM.lm_head := lm_head |}, geometry).

(** What [FlashShell.__init__] finds around it: the distributed group, the
    accelerator, and the hub calls for tokenizer, configuration and weight
    files. *)
Record Runtime := {
  (* [initialize_torch_distributed()] *)
  distributed : ProcessGroup;
  (* [torch.cuda.is_available()] *)
  cuda_is_available : bool;
  (* [AutoTokenizer.from_pretrained(..)] *)
  load_tokenizer : result unit;
  (* [ShellConfig.from_pretrained(..)] *)
  load_config : result ShellConfig;
  (* [weight_files(..)] and [Weights(filenames, device, dtype, ..)] *)
  open_weights : string -> string -> ProcessGroup -> result Weights;
  (* [weights._set_gptq_params(model_id)] *)
  set_gptq_params : Weights -> result Weights;
}.

(** What [FlashShell.__init__] hands to [FlashCausalLM.__init__]. *)
Record Served := {
  srv_model : CausalLM.t;
  srv_num_layers : nat;
  srv_num_kv_heads : Z;
  srv_head_size : Z;
  srv_dtype : string;
  srv_device : string;
  srv_rank : Z;
  srv_world_size : Z;
}.

(** [FlashShell.__init__] *)
Definition FlashShell_init `{Loaders} (env : Runtime)
    (quantize_ : option string) (dtype_ : option string)
    (use_medusa_ : option string) : result Served :=
  let rank := pg_rank (distributed env) in
  let world_size := pg_size (distributed env) in
  '(device_, dtype_) ←
    (if cuda_is_available env then
       Ok (("cuda:" +:+ py_str rank)%string,
           match dtype_ with None => "float16"%string | Some d => d end)
     else Raise NotImplementedError);
  _ ← load_tokenizer env;
  loaded ← load_config env;
  config ← FlashShell_configure loaded quantize_ device_ use_medusa_;
  weights ← open_weights env device_ dtype_ (distributed env);
  weights ← (if bool_decide (quantize config ∈ [Some "gptq"; Some "awq"]%string)
             then set_gptq_params env weights else Ok weights);
  '(model, geometry) ← FlashShellForCausalLM_init config weights;
  Ok {| srv_model := model;
        srv_num_layers := length (Model.layers (CausalLM.model model));
        srv_num_kv_heads := geo_num_key_value_heads geometry;
        srv_head_size := geo_head_size geometry;
        srv_dtype := dtype_;
        srv_device := device_;
        srv_rank := rank;
        srv_world_size := world_size |}.

(** ** A small checkpoint, loaders and runtime for a whole model *)

Module ToyModel.

(** Loaders over a weight source: dense tensors, sharded along the output
    axis for column layers; the row layer is loaded by [load_row]; the
    activation table knows every name. *)
Definition loaders : Loaders :=
  {| act2fn_lookup := fun _ => Ok tt;
     column_load := fun config prefix weights bias =>
       w ← get_sharded weights (prefix +:+ ".weight") 0;
       b ← (if bias then
              t ← get_sharded weights (prefix +:+ ".bias") 0; Ok (Some t)
            else Ok None);
       Ok (TensorParallelColumnLinear
             (get_linear (Dense w) b (quantize config)));
     row_load := load_row;
     layer_norm_load := fun prefix weights eps =>
       w ← get_tensor weights (prefix +:+ ".weight");
       b ← get_tensor weights (prefix +:+ ".bias");
       Ok {| ln_weight := w; ln_bias := b; ln_eps := eps |};
     embedding_load := fun prefix weights reduce =>
       w ← get_sharded weights (prefix +:+ ".weight") 0;
       Ok {| emb_weight := w; emb_reduce := reduce |};
     head_load := fun config prefix weights =>
       w ← get_sharded weights (prefix +:+ ".weight") 0;
       Ok {| head_linear := get_linear (Dense w) None (quantize config);
             head_pg := process_group weights;
             head_should_gather := true |} |}.

(** The tensors of layer [i]: hidden size 4, two query heads and one
    key/value head of size two, a feed-forward width of 8. *)
Definition layer_store (i : Z) : list (string * tensor) :=
  let p := ("transformer.h." +:+ py_str i)%string in
  [ (p +:+ ".attn.c_attn.weight", Mat 4 (Toy.rows_from 8 4));
    (p +:+ ".attn.c_attn.bias", Vec (Z.of_nat <$> seq 0 8));
    (p +:+ ".attn.c_proj.weight", Mat 4 (Toy.rows_from 4 4));
    (p +:+ ".attn.c_proj.bias", Vec (Z.of_nat <$> seq 0 4));
    (p +:+ ".mlp.c_fc.weight", Mat 4 (Toy.rows_from 8 4));
    (p +:+ ".mlp.c_fc.bias", Vec (Z.of_nat <$> seq 0 8));
    (p +:+ ".mlp.c_proj.weight", Mat 8 (Toy.rows_from 4 8));
    (p +:+ ".mlp.c_proj.bias", Vec (Z.of_nat <$> seq 0 4));
    (p +:+ ".ln_1.weight", Vec [1; 1; 1; 1]);
    (p +:+ ".ln_1.bias", Vec [0; 0; 0; 0]);
    (p +:+ ".ln_2.weight", Vec [1; 1; 1; 1]);
    (p +:+ ".ln_2.bias", Vec [0; 0; 0; 0]) ]%string.

Definition store : list (string * tensor) :=
  [ ("transformer.wte.weight", Mat 4 (Toy.rows_from 32 4));
    ("transformer.ln_f.weight", Vec [1; 1; 1; 1]);
    ("transformer.ln_f.bias", Vec [0; 0; 0; 0]) ]%string
  ++ layer_store 0 ++ layer_store 1.

(** The configuration as the hub returns it: a checkpoint with two
    layers, two query heads, one query group. *)
Definition loaded (heads : Z) : ShellConfig :=
  ShellConfig_init
    {| arg_vocab_size := 32;
       arg_hidden_size := 4;
       arg_intermediate_size := 16;
       arg_num_hidden_layers := 2;
       arg_num_attention_heads := heads;
       arg_num_key_value_heads := None;
       arg_hidden_act := "gelu_pytorch_tanh";
       arg_max_position_embeddings := 8192;
       arg_initializer_range := (2 # 100)%Q;
       arg_rms_norm_eps := (1 # 1000000)%Q;
       arg_use_cache := true;
       arg_pad_token_id := 0;
       arg_bos_token_id := 0;
       arg_eos_token_id := 0;
       arg_pretraining_tp := 1;
       arg_tie_word_embeddings := false;
       arg_rope_scaling := None;
       arg_rope_theta := (10000 # 1)%Q |}
    {| kw_architectures := Some ["CodeShellForCausalLM"%string];
       kw_num_query_groups := 1;
       kw_activation_function := "gelu_pytorch_tanh";
       kw_n_embd := 8;
       kw_layer_norm_epsilon := (1 # 100000)%Q |}.

Definition runtime (cuda : bool) (heads world_size : Z) : Runtime :=
  {| distributed := {| pg_rank := 0; pg_size := world_size |};
     cuda_is_available := cuda;
     load_tokenizer := Ok tt;
     load_config := Ok (loaded heads);
     open_weights := fun _ _ pg =>
       Ok (Toy.weights store (pg_rank pg) (pg_size pg));
     set_gptq_params := fun w => Ok w |}.

End ToyModel.

(** ** Python helpers *)

Lemma startswith_spec (s p : string) :
  startswith s p = true <-> exists suffix, s = (p +:+ suffix)%string.
Proof.
  revert s. induction p as [|c p IH]; intros s; simpl.
  - split; [intros _; by exists s | done].
  - destruct s as [|d s]; simpl.
    + split; [done | intros [sfx Hs]; discriminate].
    + destruct (Ascii.eqb_spec d c) as [->|Hne].
      * rewrite IH. split; intros [sfx Hs]; exists sfx; [by rewrite Hs | by injection Hs].
      * split; [done | intros [sfx Hs]; injection Hs; intros _ ?; done].
Qed.

Lemma floordiv_ok (a b : Z) : b <> 0 -> floordiv a b = Ok (a `div` b).
Proof. intros Hb. unfold floordiv. by destruct (decide (b = 0)). Qed.

Lemma mod_ok (a b : Z) : b <> 0 -> mod_ a b = Ok (a `mod` b).
Proof. intros Hb. unfold mod_. by destruct (decide (b = 0)). Qed.

Lemma bind_ok {A B} (m : result A) (f : A -> result B) (b : B) :
  m ≫= f = Ok b -> exists a, m = Ok a /\ f a = Ok b.
Proof. destruct m as [a|e]; simpl; [eauto | done]. Qed.

Lemma bind_raises {A B} (m : result A) (f : A -> result B) :
  raises m -> raises (m ≫= f).
Proof. intros [e ->]. by exists e. Qed.

Lemma bind_replicate_one (l : list Z) : (x ← l; replicate 1 x) = l.
Proof.
  induction l as [|x l IH]; [done|].
  change (x :: (y ← l; replicate 1 y) = x :: l). by f_equal.
Qed.

Lemma repeat_interleave_one (l : list Z) : repeat_interleave l 1 = Ok l.
Proof. unfold repeat_interleave. simpl. by rewrite bind_replicate_one. Qed.

Lemma torch_arange_ok (n : Z) : 0 <= n -> torch_arange n = Ok (ranks n).
Proof. intros Hn. unfold torch_arange. by destruct (Z.ltb_spec n 0); [lia|]. Qed.

(** ** Configuration *)

(** C10: when [num_key_value_heads] is not supplied, [ShellConfig.__init__]
    sets it to [num_attention_heads]; the group size is then one and the
    head mapping is the identity, which is plain multi-head attention. *)
Theorem shell_config_default_kv_heads (a : ShellConfigArgs)
    (kw : PretrainedKwargs) :
  arg_num_key_value_heads a = None ->
  Cfg.num_key_value_heads (ShellConfig_init a kw)
  = Cfg.num_attention_heads (ShellConfig_init a kw)
  /\ Cfg.num_attention_heads (ShellConfig_init a kw) = arg_num_attention_heads a
  /\ (0 < arg_num_attention_heads a ->
      Attn.build_kv_head_mapping
        (Cfg.num_attention_heads (ShellConfig_init a kw))
        (Cfg.num_key_value_heads (ShellConfig_init a kw))
      = Ok (1, ranks (arg_num_attention_heads a))).
Proof.
  intros Hnone. unfold ShellConfig_init. simpl. rewrite Hnone.
  split; [done|]. split; [done|]. intros Hpos.
  unfold Attn.build_kv_head_mapping.
  rewrite floordiv_ok by lia. rewrite torch_arange_ok by lia. simpl.
  rewrite Z.div_same by lia. by rewrite repeat_interleave_one.
Qed.

Lemma shell_config_default_kv_heads_witness :
  arg_num_key_value_heads ShellConfig_defaults = None
  /\ Cfg.num_key_value_heads
       (ShellConfig_init ShellConfig_defaults (Toy.kw "CodeShellForCausalLM"))
     = 32.
Proof.
  split; [reflexivity|].
  rewrite (proj1 (shell_config_default_kv_heads ShellConfig_defaults
                    (Toy.kw "CodeShellForCausalLM") eq_refl)).
  reflexivity.
Defined.



(** ** Loading the fused attention weight *)

(** C2: with the quantization mode ["gptq"], [load_attention] raises
    nothing: the exception is built but not raised, and the call returns
    [None]. *)
Theorem load_attention_gptq_returns_none (shell_ : ShellConfig)
    (transpose_ : bool) (device_ : string) (use_medusa_ : option string)
    (prefix : string) (weights : Weights) (bias : bool) (q_size kv_size : Z) :
  load_attention
    {| shell := shell_; quantize := Some "gptq"; transpose := transpose_;
       device := device_; use_medusa := use_medusa_ |}
    prefix weights bias q_size kv_size
  = Ok None.
Proof. reflexivity. Qed.

(** The module is then built without its projection, and the failure
    shows at the first forward call. *)
Lemma gptq_failure_deferred_to_forward :
  exists attn,
    Attn.init "attn" (Toy.config 2 1 4 (Some "gptq") false)
              (Toy.weights (Toy.store 8 4) 0 1) = Ok attn
    /\ Attn.query_key_value attn = None
    /\ forall x st, @Attn.forward Toy.kernels attn x st = Raise TypeError.
Proof.
  eexists. split; [vm_compute; reflexivity|]. split; [reflexivity|].
  intros x st. reflexivity.
Qed.

(** ** Slices and shard blocks *)

Lemma slice_take_drop {A} (l : list A) (a b : Z) :
  0 <= a <= b ->
  slice l a b = take (Z.to_nat (b - a)) (drop (Z.to_nat a) l).
Proof.
  intros Hab. unfold slice, slice_len, slice_index.
  destruct (Z.ltb_spec a 0); [lia|]. destruct (Z.ltb_spec b 0); [lia|].
  destruct (decide (Z.of_nat (length l) <= a)) as [Hle|Hgt].
  - rewrite !drop_ge by lia. by rewrite !take_nil.
  - replace (Z.to_nat (a `min` Z.of_nat (length l))) with (Z.to_nat a) by lia.
    destruct (decide (b <= Z.of_nat (length l))) as [Hb|Hb].
    + f_equal. lia.
    + rewrite !take_ge; [done| |]; rewrite length_drop; lia.
Qed.

Lemma shard_block_segment {A} (l : list A) (offset len r block : Z) :
  0 <= offset -> 0 <= r -> 0 <= block -> (r + 1) * block <= len ->
  shard_block (segment l offset len) r block
  = take (Z.to_nat block) (drop (Z.to_nat (offset + r * block)) l).
Proof.
  intros Ho Hr Hb Hlen. unfold shard_block, segment.
  rewrite skipn_firstn_comm, take_take, drop_drop.
  f_equal; [|f_equal]; nia.
Qed.

Lemma attention_bounds_raises (q_size kv_size world_size rank : Z) :
  ~ (world_size | q_size) \/ ~ (world_size | kv_size) ->
  attention_bounds q_size kv_size world_size rank
  = Raise (if decide (world_size = 0) then ZeroDivisionError
           else AssertionError).
Proof.
  intros Hdiv. unfold attention_bounds, mod_, floordiv.
  destruct (decide (world_size = 0)) as [Hz|Hnz]; [done|]. simpl.
  destruct (Z.eqb_spec (q_size `mod` world_size) 0) as [Hq|Hq]; [|done]. simpl.
  destruct (Z.eqb_spec (kv_size `mod` world_size) 0) as [Hk|Hk]; [|done].
  apply Z.mod_divide in Hq, Hk; [|done..]. tauto.
Qed.

Lemma attention_bounds_ok (q_size kv_size world_size rank : Z) :
  world_size <> 0 -> (world_size | q_size) -> (world_size | kv_size) ->
  attention_bounds q_size kv_size world_size rank
  = Ok {| q_start := rank * (q_size `div` world_size);
          q_stop := (rank + 1) * (q_size `div` world_size);
          k_start := q_size + rank * (kv_size `div` world_size);
          k_stop := q_size + (rank + 1) * (kv_size `div` world_size);
          v_start := q_size + kv_size + rank * (kv_size `div` world_size);
          v_stop := q_size + kv_size + (rank + 1) * (kv_size `div` world_size) |}.
Proof.
  intros Hnz Hq Hk. unfold attention_bounds, mod_, floordiv.
  destruct (decide (world_size = 0)); [done|]. simpl.
  apply Z.mod_divide in Hq, Hk; [|done..]. by rewrite Hq, Hk.
Qed.

Lemma block_bounds (size world_size r : Z) :
  0 < world_size -> 0 <= r < world_size -> 0 <= size -> (world_size | size) ->
  0 <= size `div` world_size /\ (r + 1) * (size `div` world_size) <= size.
Proof.
  intros Hws Hr Hs [k ->]. rewrite Z.div_mul by lia. nia.
Qed.

Lemma slice_shard_block {A} (l : list A) (offset len world_size r : Z) :
  0 < world_size -> 0 <= r < world_size -> 0 <= offset -> 0 <= len ->
  (world_size | len) ->
  slice l (offset + r * (len `div` world_size))
          (offset + (r + 1) * (len `div` world_size))
  = shard_block (segment l offset len) r (len `div` world_size).
Proof.
  intros Hws Hr Ho Hl Hdiv.
  destruct (block_bounds len world_size r) as [Hb Hb']; [done..|].
  rewrite shard_block_segment by lia.
  rewrite slice_take_drop by nia. f_equal. lia.
Qed.

Lemma row_layout_shard (config : Config) (prefix : string) (weights : Weights)
    (bias : bool) (q_size kv_size : Z) (c : nat) (rows : list (list Z))
    (bs : list Z) :
  let world_size := pg_size (process_group weights) in
  let r := pg_rank (process_group weights) in
  transpose config = false ->
  0 < world_size -> 0 <= r < world_size ->
  0 <= q_size -> 0 <= kv_size ->
  (world_size | q_size) -> (world_size | kv_size) ->
  _get_slice weights (prefix +:+ ".c_attn.weight") = Ok (Mat c rows) ->
  _get_slice weights (prefix +:+ ".c_attn.bias") = Ok (Vec bs) ->
  _load_attention config prefix weights bias q_size kv_size
  = Ok (TensorParallelColumnLinear
          (get_linear
             (Dense (tensor_to weights
                (Mat c (shard_rows rows q_size kv_size world_size r))))
             (if bias
              then Some (tensor_to weights
                     (Vec (shard_rows bs q_size kv_size world_size r)))
              else None)
             (quantize config))).
Proof.
  intros ws r Htr Hws Hr Hq Hkv Hdq Hdk Hw Hb.
  unfold _load_attention. rewrite Hw. simpl.
  rewrite attention_bounds_ok by (done || lia). simpl. rewrite Htr. simpl.
  fold ws r.
  pose proof (slice_shard_block rows 0 q_size ws r Hws Hr (Z.le_refl 0) Hq Hdq) as E1.
  pose proof (slice_shard_block rows q_size kv_size ws r Hws Hr Hq Hkv Hdk) as E2.
  pose proof (slice_shard_block rows (q_size + kv_size) kv_size ws r Hws Hr
                ltac:(lia) Hkv Hdk) as E3.
  pose proof (slice_shard_block bs 0 q_size ws r Hws Hr (Z.le_refl 0) Hq Hdq) as F1.
  pose proof (slice_shard_block bs q_size kv_size ws r Hws Hr Hq Hkv Hdk) as F2.
  pose proof (slice_shard_block bs (q_size + kv_size) kv_size ws r Hws Hr
                ltac:(lia) Hkv Hdk) as F3.
  rewrite Z.add_0_l in E1, F1. rewrite Z.add_0_l in E1, F1.
  rewrite E1, E2, E3.
  destruct (decide (c = c)); [|done]. simpl.
  destruct (decide (c = c)); [|done]. simpl.
  destruct bias; simpl; [|done].
  rewrite Hb. simpl. rewrite F1, F2, F3. done.
Qed.

(** C7: [_load_attention] fails when the shard count does not divide
    [q_size] or [kv_size] (an [AssertionError], once the fused weight is
    found and the shard count is not zero; no layer is returned); when it
    divides both, shard [r] slices [[r*q_block, (r+1)*q_block)] of the
    query segment and the same block of the key and value segments, each
    behind its offset, and in the row layout the loaded weight and bias are
    exactly these rows. *)
Theorem load_attention_divisibility (config : Config) (prefix : string)
    (weights : Weights) (bias : bool) (q_size kv_size : Z) (c : nat)
    (rows : list (list Z)) (bs : list Z) :
  let world_size := pg_size (process_group weights) in
  let r := pg_rank (process_group weights) in
  (~ (world_size | q_size) \/ ~ (world_size | kv_size) ->
   raises (_load_attention config prefix weights bias q_size kv_size)
   /\ forall fused,
       _get_slice weights (prefix +:+ ".c_attn.weight") = Ok fused ->
       _load_attention config prefix weights bias q_size kv_size
       = Raise (if decide (world_size = 0) then ZeroDivisionError
                else AssertionError))
  /\ (0 < world_size -> 0 <= r < world_size ->
      0 <= q_size -> 0 <= kv_size ->
      (world_size | q_size) -> (world_size | kv_size) ->
      attention_bounds q_size kv_size world_size r
      = Ok {| q_start := r * (q_size `div` world_size);
              q_stop := (r + 1) * (q_size `div` world_size);
              k_start := q_size + r * (kv_size `div` world_size);
              k_stop := q_size + (r + 1) * (kv_size `div` world_size);
              v_start := q_size + kv_size + r * (kv_size `div` world_size);
              v_stop := q_size + kv_size
                        + (r + 1) * (kv_size `div` world_size) |}
      /\ (transpose config = false ->
          _get_slice weights (prefix +:+ ".c_attn.weight") = Ok (Mat c rows) ->
          _get_slice weights (prefix +:+ ".c_attn.bias") = Ok (Vec bs) ->
          _load_attention config prefix weights bias q_size kv_size
          = Ok (TensorParallelColumnLinear
                  (get_linear
                     (Dense (tensor_to weights
                        (Mat c (shard_rows rows q_size kv_size world_size r))))
                     (if bias
                      then Some (tensor_to weights
                             (Vec (shard_rows bs q_size kv_size world_size r)))
                      else None)
                     (quantize config))))).
Proof.
  intros ws r. split.
  - intros Hdiv.
    pose proof (attention_bounds_raises q_size kv_size ws r Hdiv) as Hb.
    split.
    + unfold _load_attention.
      destruct (_get_slice weights (prefix +:+ ".c_attn.weight")) as [fused|e].
      * simpl. fold ws r. rewrite Hb. by eexists.
      * by exists e.
    + intros fused Hf. unfold _load_attention. rewrite Hf. simpl.
      fold ws r. by rewrite Hb.
  - intros Hws Hr Hq Hkv Hdq Hdk. split.
    + apply attention_bounds_ok; [lia|done..].
    + intros Htr Hw Hb. by apply row_layout_shard.
Qed.

Lemma load_attention_divisibility_witness :
  raises (_load_attention (Toy.config 2 1 4 None false) "attn"
            (Toy.weights (Toy.store 8 4) 0 2) true 3 2)
  /\ attention_bounds 4 2 2 1
     = Ok {| q_start := 2; q_stop := 4; k_start := 5; k_stop := 6;
             v_start := 7; v_stop := 8 |}.
Proof.
  pose proof (load_attention_divisibility (Toy.config 2 1 4 None false) "attn"
                (Toy.weights (Toy.store 8 4) 0 2) true 3 2 4 [] []) as [Hfail _].
  pose proof (load_attention_divisibility (Toy.config 2 1 4 None false) "attn"
                (Toy.weights (Toy.store 8 4) 1 2) true 4 2 4 [] []) as [_ Hok].
  split.
  - apply Hfail. left. intros [k Hk]. simpl in Hk. lia.
  - simpl in Hok.
    refine (proj1 (Hok _ _ _ _ _ _)); try lia; [by exists 2 | by exists 1].
Defined.

(** ** Putting the shards back together *)

Lemma shard_block_length {A} (l : list A) (offset len r block : Z) :
  0 <= offset -> 0 <= r -> 0 <= block -> (r + 1) * block <= len ->
  offset + len <= Z.of_nat (length l) ->
  length (shard_block (segment l offset len) r block) = Z.to_nat block.
Proof.
  intros Ho Hr Hb Hlen Hl. rewrite shard_block_segment by done.
  rewrite length_take, length_drop. nia.
Qed.

Lemma concat_shard_blocks {A} (seg : list A) (n : nat) (block : Z) :
  0 <= block ->
  concat ((fun r => shard_block seg r block) <$> (Z.of_nat <$> seq 0 n))
  = take (n * Z.to_nat block) seg.
Proof.
  intros Hb. induction n as [|n IH]; [done|].
  rewrite seq_S, !fmap_app, concat_app, IH. simpl. rewrite app_nil_r.
  unfold shard_block.
  replace (Z.to_nat (Z.of_nat n * block)) with (n * Z.to_nat block)%nat by nia.
  rewrite take_take_drop. f_equal. lia.
Qed.

Lemma shard_rows_parts {A} (l : list A) (q_size kv_size world_size r : Z) :
  0 < world_size -> 0 <= r < world_size -> 0 <= q_size -> 0 <= kv_size ->
  (world_size | q_size) -> (world_size | kv_size) ->
  Z.of_nat (length l) = q_size + 2 * kv_size ->
  let q_block := q_size `div` world_size in
  let kv_block := kv_size `div` world_size in
  let shard := shard_rows l q_size kv_size world_size r in
  q_part q_block kv_block shard = shard_block (segment l 0 q_size) r q_block
  /\ k_part q_block kv_block shard
     = shard_block (segment l q_size kv_size) r kv_block
  /\ v_part q_block kv_block shard
     = shard_block (segment l (q_size + kv_size) kv_size) r kv_block.
Proof.
  intros Hws Hr Hq Hkv Hdq Hdk Hlen qb kvb shard.
  destruct (block_bounds q_size world_size r) as [Hqb Hqb']; [done..|].
  destruct (block_bounds kv_size world_size r) as [Hkb Hkb']; [done..|].
  pose proof (shard_block_length l 0 q_size r qb (Z.le_refl 0) (proj1 Hr) Hqb Hqb'
                ltac:(lia)) as L1.
  pose proof (shard_block_length l q_size kv_size r kvb Hq (proj1 Hr) Hkb Hkb'
                ltac:(lia)) as L2.
  pose proof (shard_block_length l (q_size + kv_size) kv_size r kvb
                ltac:(lia) (proj1 Hr) Hkb Hkb' ltac:(lia)) as L3.
  unfold q_part, k_part, v_part, shard, shard_rows. fold qb kvb.
  unfold segment in *.
  split; [|split].
  - change (Z.to_nat 0) with 0%nat. rewrite drop_0. by rewrite take_app_length'.
  - rewrite drop_app_length' by done. by rewrite take_app_length'.
  - replace (Z.to_nat (qb + kvb)) with (Z.to_nat qb + Z.to_nat kvb)%nat by lia.
    rewrite <- drop_drop. rewrite drop_app_length' by done.
    rewrite drop_app_length' by done. apply take_ge. by rewrite L3.
Qed.

Lemma reassemble_shard_rows {A} (l : list A) (q_size kv_size world_size : Z) :
  0 < world_size -> 0 <= q_size -> 0 <= kv_size ->
  (world_size | q_size) -> (world_size | kv_size) ->
  Z.of_nat (length l) = q_size + 2 * kv_size ->
  reassemble (q_size `div` world_size) (kv_size `div` world_size)
    ((fun r => shard_rows l q_size kv_size world_size r) <$> ranks world_size)
  = l.
Proof.
  intros Hws Hq Hkv Hdq Hdk Hlen.
  set (qb := q_size `div` world_size). set (kvb := kv_size `div` world_size).
  assert (Hqb : q_size = world_size * qb).
  { destruct Hdq as [k ->]. unfold qb. rewrite Z.div_mul by lia. lia. }
  assert (Hkb : kv_size = world_size * kvb).
  { destruct Hdk as [k ->]. unfold kvb. rewrite Z.div_mul by lia. lia. }
  assert (0 <= qb) by nia. assert (0 <= kvb) by nia.
  unfold reassemble. rewrite <- !list_fmap_compose.
  assert (Hin : forall r, r ∈ ranks world_size -> 0 <= r < world_size).
  { intros r Hr. unfold ranks in Hr. apply list_elem_of_fmap in Hr as [i [-> Hi]].
    apply elem_of_seq in Hi. lia. }
  rewrite (list_fmap_ext (q_part qb kvb ∘ _)
             (fun r => shard_block (segment l 0 q_size) r qb) (ranks world_size)).
  2:{ intros i r Hr. apply list_elem_of_lookup_2 in Hr. simpl.
      by apply shard_rows_parts; auto. }
  rewrite (list_fmap_ext (k_part qb kvb ∘ _)
             (fun r => shard_block (segment l q_size kv_size) r kvb)
             (ranks world_size)).
  2:{ intros i r Hr. apply list_elem_of_lookup_2 in Hr. simpl.
      by apply shard_rows_parts; auto. }
  rewrite (list_fmap_ext (v_part qb kvb ∘ _)
             (fun r => shard_block (segment l (q_size + kv_size) kv_size) r kvb)
             (ranks world_size)).
  2:{ intros i r Hr. apply list_elem_of_lookup_2 in Hr. simpl.
      by apply shard_rows_parts; auto. }
  unfold ranks. rewrite !concat_shard_blocks by done.
  unfold segment.
  rewrite !take_take.
  rewrite !(Nat.min_r (Z.to_nat world_size * _)) by nia.
  change (Z.to_nat 0) with 0%nat. rewrite drop_0.
  rewrite app_assoc, take_take_drop.
  replace (Z.to_nat (q_size + kv_size))
    with (Z.to_nat q_size + Z.to_nat kv_size)%nat by lia.
  rewrite take_take_drop. apply take_ge. lia.
Qed.

Lemma mapM_ok {A B} (f : A -> result B) (g : A -> B) (l : list A) :
  (forall x, x ∈ l -> f x = Ok (g x)) -> mapM f l = Ok (g <$> l).
Proof.
  induction l as [|x l IH]; intros Hf; [done|].
  simpl. rewrite (Hf x) by constructor. simpl.
  rewrite IH; [done|]. intros y Hy. apply Hf. by constructor.
Qed.

Lemma shard_rows_fmap {A B} (f : A -> B) (l : list A)
    (q_size kv_size world_size r : Z) :
  shard_rows (f <$> l) q_size kv_size world_size r
  = f <$> shard_rows l q_size kv_size world_size r.
Proof.
  unfold shard_rows, shard_block, segment.
  rewrite !fmap_app. by repeat (rewrite fmap_take || rewrite fmap_drop).
Qed.

Lemma ranks_bounds (world_size r : Z) :
  r ∈ ranks world_size -> 0 <= r < world_size.
Proof.
  unfold ranks. intros Hr. apply list_elem_of_fmap in Hr as [i [-> Hi]].
  apply elem_of_seq in Hi. lia.
Qed.

(** In the row layout the shards of all ranks, put back together block by
    block, are the fused weight and the fused bias as stored (converted to
    the target dtype). *)
Theorem row_layout_shards_reassemble (config : Config) (prefix : string)
    (weights : Weights) (q_size kv_size : Z) (c : nat)
    (rows : list (list Z)) (bs : list Z) :
  let world_size := pg_size (process_group weights) in
  transpose config = false ->
  0 < world_size -> 0 <= q_size -> 0 <= kv_size ->
  (world_size | q_size) -> (world_size | kv_size) ->
  _get_slice weights (prefix +:+ ".c_attn.weight") = Ok (Mat c rows) ->
  Z.of_nat (length rows) = q_size + 2 * kv_size ->
  _get_slice weights (prefix +:+ ".c_attn.bias") = Ok (Vec bs) ->
  Z.of_nat (length bs) = q_size + 2 * kv_size ->
  exists shards,
    mapM (fun r => _load_attention config prefix (at_rank weights r) true
                     q_size kv_size) (ranks world_size) = Ok shards
    /\ reassemble (q_size `div` world_size) (kv_size `div` world_size)
         (weight_rows <$> shards)
       = map (to_dtype weights) <$> rows
    /\ reassemble (q_size `div` world_size) (kv_size `div` world_size)
         (bias_entries <$> shards)
       = to_dtype weights <$> bs.
Proof.
  intros ws Htr Hws Hq Hkv Hdq Hdk Hw Hlw Hb Hlb.
  set (layer := fun r : Z =>
    TensorParallelColumnLinear
      (get_linear
         (Dense (tensor_to weights (Mat c (shard_rows rows q_size kv_size ws r))))
         (Some (tensor_to weights (Vec (shard_rows bs q_size kv_size ws r))))
         (quantize config))).
  exists (layer <$> ranks ws). split; [|split].
  - apply mapM_ok. intros r Hr. apply ranks_bounds in Hr.
    by apply (row_layout_shard config prefix (at_rank weights r) true
                q_size kv_size c rows bs).
  - rewrite <- list_fmap_compose.
    rewrite (list_fmap_ext (weight_rows ∘ layer)
               (fun r => shard_rows (map (to_dtype weights) <$> rows)
                           q_size kv_size ws r) (ranks ws)).
    2:{ intros i r _. simpl. by rewrite shard_rows_fmap. }
    apply reassemble_shard_rows; try done. by rewrite length_fmap.
  - rewrite <- list_fmap_compose.
    rewrite (list_fmap_ext (bias_entries ∘ layer)
               (fun r => shard_rows (to_dtype weights <$> bs)
                           q_size kv_size ws r) (ranks ws)).
    2:{ intros i r _. simpl. by rewrite shard_rows_fmap. }
    apply reassemble_shard_rows; try done. by rewrite length_fmap.
Qed.

Lemma row_layout_shards_reassemble_witness :
  exists shards,
    mapM (fun r => _load_attention (Toy.config 2 1 4 None false) "attn"
                     (at_rank (Toy.weights (Toy.store 8 4) 0 2) r) true 4 2)
         (ranks 2) = Ok shards
    /\ reassemble 2 1 (weight_rows <$> shards) = Toy.rows_from 8 4.
Proof.
  destruct (row_layout_shards_reassemble (Toy.config 2 1 4 None false) "attn"
              (Toy.weights (Toy.store 8 4) 0 2) 4 2 4 (Toy.rows_from 8 4)
              (Z.of_nat <$> seq 0 8)
              eq_refl eq_refl ltac:(lia) ltac:(lia)
              (ex_intro _ 2 eq_refl) (ex_intro _ 1 eq_refl)
              eq_refl eq_refl eq_refl eq_refl)
    as [shards [Hload [Hw _]]].
  exists shards. split; [exact Hload|].
  etrans; [exact Hw|]. reflexivity.
Defined.

Lemma slice_len_in_range (len : nat) (a b : Z) :
  0 <= a <= b -> b <= Z.of_nat len -> slice_len len a b = Z.to_nat (b - a).
Proof.
  intros Hab Hb. unfold slice_len, slice_index.
  destruct (Z.ltb_spec a 0); [lia|]. destruct (Z.ltb_spec b 0); [lia|]. lia.
Qed.

(** In the transposed layout the three slices are taken along the second
    axis but still concatenated along the first: whenever the query block
    and the key/value block differ in width, the load fails inside
    [torch.cat]. *)
Lemma transposed_layout_rejects_unequal_blocks (config : Config)
    (prefix : string) (weights : Weights) (bias : bool) (q_size kv_size : Z)
    (c : nat) (rows : list (list Z)) :
  let world_size := pg_size (process_group weights) in
  let r := pg_rank (process_group weights) in
  transpose config = true ->
  0 < world_size -> 0 <= r < world_size ->
  0 <= q_size -> 0 <= kv_size ->
  (world_size | q_size) -> (world_size | kv_size) ->
  _get_slice weights (prefix +:+ ".c_attn.weight") = Ok (Mat c rows) ->
  Z.of_nat c = q_size + 2 * kv_size ->
  q_size <> kv_size ->
  _load_attention config prefix weights bias q_size kv_size
  = Raise RuntimeError.
Proof.
  intros ws r Htr Hws Hr Hq Hkv Hdq Hdk Hw Hc Hne.
  destruct (block_bounds q_size ws r) as [Hqb Hqb']; [done..|].
  destruct (block_bounds kv_size ws r) as [Hkb Hkb']; [done..|].
  unfold _load_attention. rewrite Hw. simpl. fold ws r.
  rewrite attention_bounds_ok by (done || lia). simpl. rewrite Htr. simpl.
  rewrite !slice_len_in_range by nia.
  destruct (decide (_ = _)) as [_|Hk]; [|lia]. simpl.
  destruct (decide (_ = _)) as [Heq|_]; [|done].
  exfalso. destruct Hdq as [a ->], Hdk as [b ->].
  rewrite !Z.div_mul in Heq by lia.
  assert (a = b) by nia. subst. done.
Qed.

(** C1: for a checkpoint in the transposed layout with two query heads and
    one key/value head, on a single shard, [_load_attention] does not
    return the shard's blocks: the query slice is two columns wide, the
    key and value slices one, and [torch.cat] refuses them. *)
Theorem transposed_layout_load_fails :
  _load_attention (Toy.config 2 1 2 None true) "attn"
    (Toy.weights Toy.transposed_store 0 1) true 2 1
  = Raise RuntimeError.
Proof. reflexivity. Qed.

(** ** Constructing the attention module *)

Lemma bind_replicate_length (l : list Z) (g : nat) :
  length (x ← l; replicate g x) = (length l * g)%nat.
Proof.
  induction l as [|x l IH]; [done|].
  change (length (replicate g x ++ (y ← l; replicate g y))
          = (S (length l) * g)%nat).
  rewrite length_app, length_replicate, IH. lia.
Qed.

Lemma bind_replicate_lookup (l : list Z) (g i : nat) :
  (0 < g)%nat -> (x ← l; replicate g x) !! i = l !! (i / g)%nat.
Proof.
  intros Hg. revert i. induction l as [|x l IH]; intros i; [done|].
  change ((replicate g x ++ (y ← l; replicate g y)) !! i
          = (x :: l) !! (i / g)%nat).
  destruct (decide (i < g)%nat) as [Hlt|Hge].
  - rewrite lookup_app_l by (rewrite length_replicate; lia).
    rewrite Nat.div_small by lia. simpl.
    by apply lookup_replicate_2.
  - rewrite lookup_app_r by (rewrite length_replicate; lia).
    rewrite length_replicate, IH.
    replace (i / g)%nat with (S ((i - g) / g)).
    + done.
    + replace i with ((i - g) + 1 * g)%nat at 2 by lia.
      rewrite Nat.div_add by lia. lia.
Qed.

Lemma ranks_lookup (n : Z) (j : nat) :
  (Z.of_nat j < n) -> ranks n !! j = Some (Z.of_nat j).
Proof.
  intros Hj. unfold ranks. rewrite list_lookup_fmap, lookup_seq_lt by lia. done.
Qed.







(** ** The row-sharded output projection *)

Lemma mapM_Forall2 {A B} (f : A -> result B) (P : A -> B -> Prop)
    (l : list A) :
  (forall x, x ∈ l -> exists y, f x = Ok y /\ P x y) ->
  exists ys, mapM f l = Ok ys /\ Forall2 P l ys.
Proof.
  induction l as [|x l IH]; intros Hf.
  - exists []. by split.
  - destruct (Hf x) as [y [Hy HP]]; [constructor|].
    destruct IH as [ys [Hys HF]].
    { intros z Hz. apply Hf. by constructor. }
    exists (y :: ys). split; [|by constructor].
    simpl. rewrite Hy. simpl. by rewrite Hys.
Qed.

Lemma ranks_cons (world_size : Z) :
  0 < world_size ->
  ranks world_size = 0 :: (Z.of_nat <$> seq 1 (Z.to_nat world_size - 1)).
Proof.
  intros Hws. unfold ranks.
  replace (Z.to_nat world_size) with (S (Z.to_nat world_size - 1)) at 1 by lia.
  done.
Qed.

Lemma zip_with_add_swap (x b s : list Z) :
  zip_with Z.add (zip_with Z.add x b) s
  = zip_with Z.add (zip_with Z.add x s) b.
Proof.
  revert b s. induction x as [|a x IH]; intros [|b0 b] [|s0 s]; simpl; try done.
  f_equal; [lia | apply IH].
Qed.

(** What [load_row] attaches as bias: the stored bias on rank zero, nothing
    elsewhere. *)
Lemma load_row_bias (config : Config) (prefix : string) (weights : Weights)
    (b : tensor) :
  get_tensor weights (prefix +:+ ".bias") = Ok b ->
  is_ok (load_row config prefix weights false) = true ->
  exists l,
    load_row config prefix weights true = Ok l
    /\ lin_bias (row_linear l)
       = if pg_rank (process_group weights) =? 0 then Some b else None.
Proof.
  intros Hb. unfold load_row.
  destruct (if transpose config then _ else _) as [w|e]; [|done]. simpl.
  intros _. destruct (pg_rank (process_group weights) =? 0); simpl.
  - rewrite Hb. simpl. by eexists.
  - by eexists.
Qed.

Lemma add_bias_none (rs : list Z) (layers : list RowLinear)
    (b : list Z) (partial : Z -> list Z) :
  Forall2 (fun r l => lin_bias (row_linear l)
                      = if r =? 0 then Some (Vec b) else None) rs layers ->
  Forall (fun r => r <> 0) rs ->
  zip_with add_bias layers (partial <$> rs) = partial <$> rs.
Proof.
  induction 1 as [|r l rs layers Hl _ IH]; intros Hnz; [done|].
  apply Forall_cons in Hnz as [Hr Hnz].
  change (add_bias l (partial r) :: zip_with add_bias layers (partial <$> rs)
          = partial r :: (partial <$> rs)).
  rewrite IH by done. f_equal. unfold add_bias. rewrite Hl.
  by destruct (Z.eqb_spec r 0).
Qed.

(** C4: on a group of [world_size] shards reading the same checkpoint,
    [load_row] with bias enabled attaches the stored bias on rank zero and
    on no other rank, so exactly one shard carries it, and what the
    all-reduce returns is the sum of the partial products plus the bias
    once. *)
Theorem row_bias_only_on_rank_zero (config : Config) (prefix : string)
    (shard : Z -> Weights) (world_size : Z) (b : list Z)
    (partial : Z -> list Z) :
  0 < world_size ->
  (forall r, 0 <= r < world_size ->
     process_group (shard r) = {| pg_rank := r; pg_size := world_size |}) ->
  (forall r, 0 <= r < world_size ->
     get_tensor (shard r) (prefix +:+ ".bias") = Ok (Vec b)) ->
  (forall r, 0 <= r < world_size ->
     is_ok (load_row config prefix (shard r) false) = true) ->
  exists layers,
    mapM (fun r => load_row config prefix (shard r) true) (ranks world_size)
    = Ok layers
    /\ Forall2 (fun r l => lin_bias (row_linear l)
                           = if r =? 0 then Some (Vec b) else None)
         (ranks world_size) layers
    /\ length (filter (fun l => is_Some (lin_bias (row_linear l))) layers)
       = 1%nat
    /\ all_reduce (length b)
         (zip_with add_bias layers (partial <$> ranks world_size))
       = zip_with Z.add
           (all_reduce (length b) (partial <$> ranks world_size)) b.
Proof.
  intros Hws Hpg Hb Hload.
  destruct (mapM_Forall2
              (fun r => load_row config prefix (shard r) true)
              (fun r l => lin_bias (row_linear l)
                          = if r =? 0 then Some (Vec b) else None)
              (ranks world_size)) as [layers [Hl HF]].
  { intros r Hr. apply ranks_bounds in Hr.
    destruct (load_row_bias config prefix (shard r) (Vec b)) as [l [Hl Hbias]];
      [by apply Hb | by apply Hload |].
    exists l. split; [done|]. by rewrite Hbias, (Hpg r Hr). }
  exists layers. split; [done|]. split; [done|].
  rewrite ranks_cons in HF |- * by done.
  apply Forall2_cons_inv_l in HF as (l0 & ls & Hl0 & HF & ->).
  assert (Hnz : Forall (fun r => r <> 0)
                  (Z.of_nat <$> seq 1 (Z.to_nat world_size - 1))).
  { apply Forall_fmap, Forall_forall. intros i Hi.
    apply elem_of_seq in Hi. simpl. lia. }
  split.
  - rewrite filter_cons_True by (rewrite Hl0; by eexists).
    simpl. f_equal.
    clear Hl. induction HF as [|r l rs ls' Hr _ IH]; [done|].
    apply Forall_cons in Hnz as [Hr0 Hnz].
    rewrite filter_cons_False; [by apply IH|].
    rewrite Hr. destruct (Z.eqb_spec r 0); [done|]. by intros [? ?].
  - change (zip_with Z.add (add_bias l0 (partial 0))
              (all_reduce (length b)
                 (zip_with add_bias ls
                    (partial <$> (Z.of_nat <$> seq 1 (Z.to_nat world_size - 1)))))
            = zip_with Z.add
                (zip_with Z.add (partial 0)
                   (all_reduce (length b)
                      (partial <$> (Z.of_nat <$> seq 1 (Z.to_nat world_size - 1)))))
                b).
    rewrite (add_bias_none _ ls b partial HF Hnz).
    unfold add_bias. rewrite Hl0. simpl. apply zip_with_add_swap.
Qed.

Lemma row_bias_only_on_rank_zero_witness :
  exists layers,
    mapM (fun r => load_row (Toy.config 2 1 4 None false) "attn.c_proj"
                     (Toy.weights (Toy.store 8 4) r 4) true) (ranks 4)
    = Ok layers
    /\ all_reduce 4
         (zip_with add_bias layers ((fun r => [r; r; r; r]) <$> ranks 4))
       = [6; 7; 8; 9].
Proof.
  destruct (row_bias_only_on_rank_zero (Toy.config 2 1 4 None false)
              "attn.c_proj" (fun r => Toy.weights (Toy.store 8 4) r 4) 4
              [0; 1; 2; 3] (fun r => [r; r; r; r])
              ltac:(lia)
              (fun r _ => eq_refl) (fun r _ => eq_refl) (fun r _ => eq_refl))
    as [layers [Hl [_ [_ Hsum]]]].
  exists layers. split; [exact Hl|].
  etrans; [exact Hsum|]. reflexivity.
Defined.

(** ** The attention forward pass *)

Lemma cache_writes_preserve (slots : list Z) (ks vs : list (list Z))
    (c : gmap Z (list Z) * gmap Z (list Z)) (s : Z) :
  s ∉ slots ->
  (foldl Attn.write_slot c (zip slots (zip ks vs))).1 !! s = c.1 !! s
  /\ (foldl Attn.write_slot c (zip slots (zip ks vs))).2 !! s = c.2 !! s.
Proof.
  revert ks vs c. induction slots as [|s0 slots IH]; intros ks vs c Hs; [done|].
  apply not_elem_of_cons in Hs as [Hne Hs].
  destruct ks as [|k ks]; [done|]. destruct vs as [|v vs]; [done|]. simpl.
  destruct (IH ks vs (Attn.write_slot c (s0, (k, v))) Hs) as [-> ->].
  unfold Attn.write_slot. simpl. by rewrite !lookup_insert_ne.
Qed.

Lemma cache_writes_lookup (slots : list Z) (ks vs : list (list Z))
    (c : gmap Z (list Z) * gmap Z (list Z)) (i : nat) (s : Z)
    (k v : list Z) :
  NoDup slots ->
  slots !! i = Some s -> ks !! i = Some k -> vs !! i = Some v ->
  (foldl Attn.write_slot c (zip slots (zip ks vs))).1 !! s = Some k
  /\ (foldl Attn.write_slot c (zip slots (zip ks vs))).2 !! s = Some v.
Proof.
  revert ks vs c i. induction slots as [|s0 slots IH];
    intros ks vs c i Hnd Hs Hk Hv; [done|].
  apply NoDup_cons in Hnd as [Hnotin Hnd].
  destruct ks as [|k0 ks]; [done|]. destruct vs as [|v0 vs]; [done|].
  destruct i as [|i]; simpl in *.
  - injection Hs as ->. injection Hk as ->. injection Hv as ->.
    destruct (cache_writes_preserve slots ks vs (Attn.write_slot c (s, (k, v))) s
                Hnotin) as [-> ->].
    unfold Attn.write_slot. simpl. by rewrite !lookup_insert_eq.
  - by apply (IH ks vs _ i).
Qed.

Lemma view_rows_ok (t : tensor) (dims : list Z) :
  Forall (fun d => 0 < d) dims -> Attn.view_rows t dims = Ok t.
Proof.
  intros Hd. unfold Attn.view_rows.
  rewrite bool_decide_eq_false_2.
  - destruct (Z.eqb_spec (foldr Z.mul 1 dims) 0) as [Hz|]; [|done].
    exfalso. induction Hd as [|d dims Hd0 _ IH]; simpl in Hz; [lia|nia].
  - intros Hex. apply Exists_exists in Hex as [d [Hin Hneg]].
    rewrite Forall_forall in Hd. specialize (Hd d Hin). lia.
Qed.

(** C6: a forward call of a module whose projection is loaded, on
    activations of the width the module splits, writes the rotated key and
    the value of every new token into the cache at the slot supplied for
    it, whatever the path, before attention is computed; then exactly one
    attention kernel runs: the dense one if [cu_seqlen_prefill] is given,
    the paged one, reading the cache just written, otherwise. *)
Theorem forward_writes_cache_then_one_path `{Kernels} (self : Attn.t)
    (x : Attn.inputs) (st : Attn.state) (layer : ColumnLinear)
    (q kv k v : tensor) :
  Attn.query_key_value self = Some layer ->
  0 < Attn.head_size self -> 0 < Attn.num_heads self ->
  0 < Attn.num_key_value_heads self ->
  Attn.split_dim1 (column_forward layer (Attn.hidden_states x))
    (Attn.head_size self * Attn.num_heads self)
    (2 * Attn.head_size self * Attn.num_key_value_heads self) = Ok (q, kv) ->
  Attn.split_dim1 kv
    (Attn.num_key_value_heads self * Attn.head_size self)
    (Attn.num_key_value_heads self * Attn.head_size self) = Ok (k, v) ->
  let qk := rotary (Attn.rotary_emb self) q k (Attn.cos x) (Attn.sin x) in
  let cache := Attn.reshape_and_cache qk.2 v (Attn.key_cache st)
                 (Attn.value_cache st) (Attn.slots x) in
  Attn.forward self x st
  = Ok (row_forward (Attn.o_proj self)
          match Attn.cu_seqlen_prefill x with
          | Some cu =>
              flash_attention qk.1 qk.2 v cu (Attn.max_s x)
                (Attn.softmax_scale self)
          | None =>
              paged_attention qk.1 cache.1 cache.2
                (Attn.kv_head_mapping self) (Attn.softmax_scale self)
                (Attn.block_tables x) (Attn.input_lengths x) (Attn.max_s x)
          end,
        {| Attn.key_cache := cache.1;
           Attn.value_cache := cache.2;
           Attn.calls :=
             Attn.calls st
             ++ [Attn.ReshapeAndCache (Attn.slots x);
                 match Attn.cu_seqlen_prefill x with
                 | Some cu => Attn.FlashAttention cu
                 | None => Attn.PagedAttention (Attn.block_tables x)
                 end] |})
  /\ (forall (i : nat) (s : Z) (kr vr : list Z),
        NoDup (Attn.slots x) ->
        Attn.slots x !! i = Some s ->
        Attn.rows_of qk.2 !! i = Some kr ->
        Attn.rows_of v !! i = Some vr ->
        cache.1 !! s = Some kr /\ cache.2 !! s = Some vr)
  /\ (forall s, s ∉ Attn.slots x ->
        cache.1 !! s = Attn.key_cache st !! s
        /\ cache.2 !! s = Attn.value_cache st !! s).
Proof.
  intros Hl Hhs Hnh Hnkv Hq Hkv qk cache. split; [|split].
  - unfold Attn.forward. rewrite Hl. simpl. rewrite Hq. simpl.
    rewrite (view_rows_ok q [Attn.num_heads self; Attn.head_size self])
      by (repeat constructor; lia).
    simpl.
    rewrite (view_rows_ok kv
               [2; Attn.num_key_value_heads self; Attn.head_size self])
      by (repeat constructor; lia).
    simpl. rewrite Hkv. simpl. fold qk. fold cache.
    destruct (Attn.cu_seqlen_prefill x) as [cu|]; simpl.
    + rewrite view_rows_ok; [|apply Forall_cons; split; [nia|by apply Forall_nil]].
      simpl. by rewrite <- (assoc_L (++)).
    + rewrite view_rows_ok; [|apply Forall_cons; split; [nia|by apply Forall_nil]].
      simpl. by rewrite <- (assoc_L (++)).
  - intros i s kr vr Hnd Hs Hk Hv.
    by apply (cache_writes_lookup _ _ _ _ i).
  - intros s Hs. by apply cache_writes_preserve.
Qed.

Lemma forward_writes_cache_then_one_path_witness :
  exists attn out st',
    Attn.init "attn" (Toy.config 2 1 4 None false)
      (Toy.weights (Toy.store 8 4) 0 1) = Ok attn
    /\ @Attn.forward Toy.kernels attn Toy.decode_inputs Toy.empty_cache
       = Ok (out, st')
    /\ Attn.calls st'
       = [Attn.ReshapeAndCache [5; 9]; Attn.PagedAttention (Mat 1 [[0]; [1]])]
    /\ Attn.key_cache st' !! 9 = Some [12; 15].
Proof.
  eexists. eexists. eexists.
  split; [vm_compute; reflexivity|].
  edestruct (@forward_writes_cache_then_one_path Toy.kernels)
    as [Hforward [Hwritten _]];
    [| | | | | | split; [exact Hforward|split] ].
  - reflexivity.
  - simpl; lia.
  - simpl; lia.
  - simpl; lia.
  - vm_compute. reflexivity.
  - vm_compute. reflexivity.
  - reflexivity.
  - vm_compute. reflexivity.
Defined.

(** ** The model head *)

Lemma toy_attention_is_constructed :
  Attn.init "attn" (Toy.config 2 1 4 None false)
    (Toy.weights (Toy.store 8 4) 0 1) = Ok Toy.attention.
Proof. vm_compute. reflexivity. Qed.

Lemma index_row_ok (rows : list (list Z)) (i : Z) :
  - Z.of_nat (length rows) <= i < Z.of_nat (length rows) ->
  exists r,
    CausalLM.index_row rows i = Ok r
    /\ rows !! Z.to_nat (i `mod` Z.of_nat (length rows)) = Some r.
Proof.
  intros Hi. unfold CausalLM.index_row.
  set (n := Z.of_nat (length rows)) in *.
  destruct (Z.ltb_spec i (- n)); [lia|]. destruct (Z.leb_spec n i); [lia|].
  simpl.
  assert (Hidx : (if i <? 0 then i + n else i) = i `mod` n).
  { destruct (Z.ltb_spec i 0).
    - apply (Z.mod_unique_pos _ _ (-1)); lia.
    - symmetry. apply Z.mod_small. lia. }
  rewrite Hidx.
  destruct (rows !! Z.to_nat (i `mod` n)) as [r|] eqn:Hr; [by exists r|].
  apply lookup_ge_None in Hr.
  pose proof (Z.mod_pos_bound i n ltac:(lia)). lia.
Qed.

(** C8: when output positions are supplied, the head is applied to the
    hidden states at these positions only and the logits have one row per
    index, in the order of the indices; when none are supplied, the logits
    have one row per hidden state, that is per input token. *)
Theorem lm_head_indices_select `{Kernels} (self : CausalLM.t)
    (x : Model.inputs) (indices : list Z) (c : nat) (rows : list (list Z))
    (caches : list Attn.state) (vocab : nat) (g : list Z -> list Z) :
  Model.forward (CausalLM.model self) x = Ok (Mat c rows, caches) ->
  length rows = length (Model.input_ids x) ->
  per_token (head_forward (CausalLM.lm_head self)) vocab g ->
  Forall (fun i => - Z.of_nat (length rows) <= i < Z.of_nat (length rows))
    indices ->
  (exists selected,
      CausalLM.forward self x (Some indices)
      = Ok (head_forward (CausalLM.lm_head self) (Mat c selected), caches)
      /\ head_forward (CausalLM.lm_head self) (Mat c selected)
         = Mat vocab (g <$> selected)
      /\ length selected = length indices
      /\ forall (j : nat) (i : Z),
           indices !! j = Some i ->
           selected !! j = rows !! Z.to_nat (i `mod` Z.of_nat (length rows)))
  /\ CausalLM.forward self x None = Ok (Mat vocab (g <$> rows), caches)
  /\ length (g <$> rows) = length (Model.input_ids x).
Proof.
  intros Hmodel Hlen Hhead Hidx. split; [|split].
  - destruct (mapM_Forall2 (CausalLM.index_row rows)
                (fun i r => rows !! Z.to_nat (i `mod` Z.of_nat (length rows))
                            = Some r) indices) as [selected [Hsel HF]].
    { intros i Hi. rewrite Forall_forall in Hidx.
      by apply index_row_ok, Hidx. }
    exists selected. split; [|split; [|split]].
    + unfold CausalLM.forward. rewrite Hmodel. simpl. by rewrite Hsel.
    + apply Hhead.
    + symmetry. by eapply Forall2_length.
    + intros j i Hj.
      destruct (Forall2_lookup_l _ _ _ _ _ HF Hj) as [r [Hr Hrow]].
      by rewrite Hr, Hrow.
  - unfold CausalLM.forward. rewrite Hmodel. simpl. by rewrite Hhead.
  - by rewrite length_fmap.
Qed.

Lemma lm_head_indices_select_witness :
  exists selected caches,
    @CausalLM.forward Toy.kernels Toy.causal_lm Toy.model_inputs
      (Some [2; -1; 0])
    = Ok (@head_forward Toy.kernels (CausalLM.lm_head Toy.causal_lm)
            (Mat 4 selected), caches)
    /\ length selected = 3%nat
    /\ selected !! 1%nat = Some [0; 26640; 53280; 79920].
Proof.
  edestruct (@lm_head_indices_select Toy.kernels Toy.causal_lm
               Toy.model_inputs [2; -1; 0])
    as [[selected [Hforward [_ [Hlen Hrows]]]] _].
  - vm_compute. reflexivity.
  - reflexivity.
  - intros c rows. reflexivity.
  - repeat constructor; simpl; lia.
  - exists selected. eexists. split; [exact Hforward|]. split; [exact Hlen|].
    exact (Hrows 1%nat (-1) eq_refl).
Defined.

(** ** More on the fused attention weight *)

Lemma transposed_layout_rejects_unequal_blocks_witness :
  _load_attention (Toy.config 2 1 2 None true) "attn"
    (Toy.weights Toy.transposed_store 0 1) false 2 1
  = Raise RuntimeError.
Proof.
  apply (transposed_layout_rejects_unequal_blocks
           (Toy.config 2 1 2 None true) "attn"
           (Toy.weights Toy.transposed_store 0 1) false 2 1 4
           [[10; 11; 12; 13]; [20; 21; 22; 23]]);
    try reflexivity; try (simpl; lia); try (by exists 2); try (by exists 1).
Defined.



(** The slice bounds of the shards tile the fused axis: the query blocks
    of ranks 0, 1, .. follow one another from 0 to [q_size], the key blocks
    from there to [q_size + kv_size], the value blocks from there to
    [q_size + 2 * kv_size]; no two shards share an entry and none is left
    out. *)
Theorem attention_bounds_tile (q_size kv_size world_size : Z) :
  0 < world_size -> 0 <= q_size -> 0 <= kv_size ->
  (world_size | q_size) -> (world_size | kv_size) ->
  exists b : Z -> qkv_bounds,
    (forall r, attention_bounds q_size kv_size world_size r = Ok (b r))
    /\ q_start (b 0) = 0 /\ q_stop (b (world_size - 1)) = q_size
    /\ k_start (b 0) = q_size
    /\ k_stop (b (world_size - 1)) = q_size + kv_size
    /\ v_start (b 0) = q_size + kv_size
    /\ v_stop (b (world_size - 1)) = q_size + 2 * kv_size
    /\ forall r, 0 <= r ->
         q_start (b r) <= q_stop (b r) /\ q_stop (b r) = q_start (b (r + 1))
         /\ k_start (b r) <= k_stop (b r) /\ k_stop (b r) = k_start (b (r + 1))
         /\ v_start (b r) <= v_stop (b r) /\ v_stop (b r) = v_start (b (r + 1)).
Proof.
  intros Hws Hq Hkv Hdq Hdk.
  exists (fun r =>
    {| q_start := r * (q_size `div` world_size);
       q_stop := (r + 1) * (q_size `div` world_size);
       k_start := q_size + r * (kv_size `div` world_size);
       k_stop := q_size + (r + 1) * (kv_size `div` world_size);
       v_start := q_size + kv_size + r * (kv_size `div` world_size);
       v_stop := q_size + kv_size + (r + 1) * (kv_size `div` world_size) |}).
  split; [intros r; apply attention_bounds_ok; [lia|done..]|].
  simpl. destruct Hdq as [a ->], Hdk as [c ->].
  rewrite !Z.div_mul by lia.
  assert (0 <= a) by nia. assert (0 <= c) by nia.
  repeat split; try nia.
Qed.

Lemma attention_bounds_tile_witness :
  exists b : Z -> qkv_bounds,
    (forall r, attention_bounds 4 2 2 r = Ok (b r))
    /\ q_stop (b 0) = q_start (b 1) /\ v_stop (b 1) = 8.
Proof.
  destruct (attention_bounds_tile 4 2 2 ltac:(lia) ltac:(lia) ltac:(lia)
              (ex_intro _ 2 eq_refl) (ex_intro _ 1 eq_refl))
    as (b & Hb & _ & _ & _ & _ & _ & Hv & Hstep).
  exists b. split; [exact Hb|]. split; [|exact Hv].
  exact (proj1 (proj2 (Hstep 0 ltac:(lia)))).
Defined.

(** A shard other than rank zero never reads the bias tensor: with bias
    enabled it loads exactly what it loads with bias disabled, also when
    the tensor is missing.  On rank zero a missing bias makes the load
    fail with the weight source's error. *)
Theorem load_row_reads_bias_on_rank_zero_only (config : Config)
    (prefix : string) (weights : Weights) (e : exn) :
  (pg_rank (process_group weights) <> 0 ->
   load_row config prefix weights true = load_row config prefix weights false)
  /\ (pg_rank (process_group weights) = 0 ->
      get_tensor weights (prefix +:+ ".bias") = Raise e ->
      is_ok (load_row config prefix weights false) = true ->
      load_row config prefix weights true = Raise e).
Proof.
  split.
  - intros Hr. unfold load_row.
    destruct (Z.eqb_spec (pg_rank (process_group weights)) 0); [done|]. done.
  - intros Hr Hb. unfold load_row. rewrite Hr, Hb. simpl.
    by destruct (if transpose config then _ else _).
Qed.

Lemma load_row_reads_bias_on_rank_zero_only_witness :
  is_ok (load_row (Toy.config 2 1 4 None false) "attn.c_proj"
           (Toy.weights [("attn.c_proj.weight"%string, Mat 4 (Toy.rows_from 4 4))]
              1 2) true) = true
  /\ load_row (Toy.config 2 1 4 None false) "attn.c_proj"
       (Toy.weights [("attn.c_proj.weight"%string, Mat 4 (Toy.rows_from 4 4))]
          0 2) true = Raise RuntimeError.
Proof.
  split.
  - rewrite (proj1 (load_row_reads_bias_on_rank_zero_only
                      (Toy.config 2 1 4 None false) "attn.c_proj"
                      (Toy.weights
                         [("attn.c_proj.weight"%string,
                           Mat 4 (Toy.rows_from 4 4))] 1 2) RuntimeError));
      [reflexivity | simpl; lia].
  - apply (proj2 (load_row_reads_bias_on_rank_zero_only
                    (Toy.config 2 1 4 None false) "attn.c_proj"
                    (Toy.weights
                       [("attn.c_proj.weight"%string,
                         Mat 4 (Toy.rows_from 4 4))] 0 2) RuntimeError));
      reflexivity.
Defined.

(** ** More on the attention module *)

Lemma init_ok_inv (prefix : string) (config : Config) (weights : Weights)
    (attn : Attn.t) :
  Attn.init prefix config weights = Ok attn ->
  let world_size := pg_size (process_group weights) in
  let heads := Cfg.num_attention_heads (shell config) in
  let kv_heads := Cfg.num_key_value_heads (shell config) in
  world_size <> 0 /\ heads <> 0
  /\ Attn.hidden_size attn = Cfg.hidden_size (shell config)
  /\ Attn.head_size attn = Cfg.hidden_size (shell config) `div` heads
  /\ Attn.head_size attn <> 0
  /\ Attn.softmax_scale attn = InvSqrt (Attn.head_size attn)
  /\ heads `mod` world_size = 0
  /\ Attn.num_heads attn = heads `div` world_size
  /\ Attn.num_key_value_heads attn = kv_heads `div` world_size
  /\ load_attention config prefix weights true
       (heads * Attn.head_size attn) (kv_heads * Attn.head_size attn)
     = Ok (Attn.query_key_value attn)
  /\ load_row config (prefix +:+ ".c_proj") weights true
     = Ok (Attn.o_proj attn)
  /\ Attn.build_kv_head_mapping (Attn.num_heads attn)
       (Attn.num_key_value_heads attn)
     = Ok (Attn.num_groups attn, Attn.kv_head_mapping attn).
Proof.
  intros H ws heads kv_heads. unfold Attn.init in H.
  apply bind_ok in H as [hs [Hhs H]].
  unfold floordiv in Hhs.
  destruct (decide (Cfg.num_attention_heads (shell config) = 0)) as [|Hh];
    [done|]. injection Hhs as <-.
  apply bind_ok in H as [sc [Hsc H]].
  unfold pow_neg_half in Hsc.
  destruct (decide (_ = 0)) as [|Hhs0]; [done|]. injection Hsc as <-.
  apply bind_ok in H as [r [Hr H]].
  unfold mod_ in Hr. destruct (decide (pg_size (process_group weights) = 0))
    as [|Hws]; [done|]. injection Hr as <-.
  destruct (Z.eqb_spec (Cfg.num_attention_heads (shell config)
                        `mod` pg_size (process_group weights)) 0) as [Hmod|];
    [|done]. simpl in H.
  rewrite !floordiv_ok in H by done. simpl in H.
  apply bind_ok in H as [qkv [Hqkv H]].
  apply bind_ok in H as [o [Ho H]].
  apply bind_ok in H as [[g m] [Hgm H]].
  injection H as <-. simpl. by rewrite Hgm.
Qed.

Lemma build_kv_head_mapping_inv (num_heads num_kv_heads g : Z) (m : list Z) :
  Attn.build_kv_head_mapping num_heads num_kv_heads = Ok (g, m) ->
  0 < num_kv_heads /\ 0 <= g /\ g = num_heads `div` num_kv_heads
  /\ m = (x ← ranks num_kv_heads; replicate (Z.to_nat g) x).
Proof.
  unfold Attn.build_kv_head_mapping, floordiv, torch_arange, repeat_interleave.
  destruct (decide (num_kv_heads = 0)) as [|Hnz]; [done|]. simpl.
  destruct (Z.ltb_spec num_kv_heads 0); [done|]. simpl.
  destruct (Z.ltb_spec (num_heads `div` num_kv_heads) 0); [done|]. simpl.
  intros [= <- <-]. repeat split; try done; lia.
Qed.

(** A module the constructor returns has a nonzero head size and at least
    one key/value head, and its head mapping holds [num_groups] entries
    for every key/value head, in order: entry [i] is [i / num_groups], so
    every entry is a key/value head of this shard.  The mapping has
    [num_key_value_heads * (num_heads // num_key_value_heads)] entries,
    which is fewer than [num_heads] when the key/value heads do not divide
    the query heads. *)
Theorem attention_init_mapping_in_range (prefix : string) (config : Config)
    (weights : Weights) (attn : Attn.t) :
  Attn.init prefix config weights = Ok attn ->
  Attn.head_size attn <> 0
  /\ 0 < Attn.num_key_value_heads attn
  /\ 0 <= Attn.num_groups attn
  /\ Attn.num_groups attn
     = Attn.num_heads attn `div` Attn.num_key_value_heads attn
  /\ Z.of_nat (length (Attn.kv_head_mapping attn))
     = Attn.num_key_value_heads attn * Attn.num_groups attn
  /\ (forall i, 0 <= i < Attn.num_key_value_heads attn * Attn.num_groups attn ->
        Attn.kv_head_mapping attn !! Z.to_nat i
        = Some (i `div` Attn.num_groups attn))
  /\ Forall (fun e => 0 <= e < Attn.num_key_value_heads attn)
       (Attn.kv_head_mapping attn).
Proof.
  intros Hinit.
  destruct (init_ok_inv _ _ _ _ Hinit)
    as (_ & _ & _ & _ & Hhs & _ & _ & _ & _ & _ & _ & Hmap).
  apply build_kv_head_mapping_inv in Hmap as (Hkv & Hg & Hgdef & Hm).
  set (nkv := Attn.num_key_value_heads attn) in *.
  set (g := Attn.num_groups attn) in *.
  assert (Hlen : Z.of_nat (length (Attn.kv_head_mapping attn)) = nkv * g).
  { rewrite Hm, bind_replicate_length. unfold ranks.
    rewrite length_fmap, length_seq. nia. }
  assert (Hlookup : forall i, 0 <= i < nkv * g ->
            Attn.kv_head_mapping attn !! Z.to_nat i = Some (i `div` g)).
  { intros i Hi. assert (0 < g) by nia.
    rewrite Hm, bind_replicate_lookup by lia.
    assert (Hdiv : (Z.to_nat i / Z.to_nat g)%nat = Z.to_nat (i `div` g)).
    { rewrite <- (Nat2Z.id (_ / _)%nat). f_equal.
      rewrite Nat2Z.inj_div. rewrite !Z2Nat.id by lia. done. }
    rewrite Hdiv.
    assert (0 <= i `div` g < nkv).
    { split; [apply Z.div_pos; lia|]. apply Z.div_lt_upper_bound; nia. }
    rewrite ranks_lookup by lia. f_equal. lia. }
  repeat split; try done.
  apply Forall_lookup. intros j e Hj.
  assert (Hjlt : Z.of_nat j < nkv * g).
  { apply lookup_lt_Some in Hj. lia. }
  rewrite <- (Nat2Z.id j), Hlookup in Hj by lia.
  injection Hj as <-. assert (0 < g) by nia.
  split; [apply Z.div_pos; lia|]. apply Z.div_lt_upper_bound; nia.
Qed.

Lemma attention_init_mapping_in_range_witness :
  exists attn,
    Attn.init "attn" (Toy.config 6 4 12 None false)
      (Toy.weights (Toy.store 28 12) 0 1) = Ok attn
    /\ Attn.num_heads attn = 6
    /\ Z.of_nat (length (Attn.kv_head_mapping attn)) = 4.
Proof.
  eexists. split; [vm_compute; reflexivity|]. split; [reflexivity|].
  etrans.
  - refine (proj1 (proj2 (proj2 (proj2 (proj2
             (attention_init_mapping_in_range "attn"
                (Toy.config 6 4 12 None false)
                (Toy.weights (Toy.store 28 12) 0 1) _ _)))))).
    vm_compute. reflexivity.
  - reflexivity.
Defined.

(** A module the constructor returns lacks its fused projection exactly
    when the quantization mode is ["gptq"], and such a module fails every
    forward call at its first statement, with a [TypeError]. *)
Theorem gptq_module_never_forwards `{Kernels} (prefix : string)
    (config : Config) (weights : Weights) (attn : Attn.t) :
  Attn.init prefix config weights = Ok attn ->
  (Attn.query_key_value attn = None <-> quantize config = Some "gptq"%string)
  /\ (quantize config = Some "gptq"%string ->
      forall x st, Attn.forward attn x st = Raise TypeError).
Proof.
  intros Hinit.
  destruct (init_ok_inv _ _ _ _ Hinit)
    as (_ & _ & _ & _ & _ & _ & _ & _ & _ & Hload & _).
  unfold load_attention in Hload.
  destruct (decide (quantize config = Some "gptq"%string)) as [Hq|Hq].
  - injection Hload as Hnone. split; [done|].
    intros _ x st. unfold Attn.forward. by rewrite <- Hnone.
  - apply bind_ok in Hload as [l [_ Hl]]. injection Hl as Hsome.
    split; [|done]. rewrite <- Hsome. done.
Qed.

Lemma gptq_module_never_forwards_witness :
  exists attn,
    Attn.init "attn" (Toy.config 2 1 4 (Some "gptq"%string) false)
      (Toy.weights (Toy.store 8 4) 0 1) = Ok attn
    /\ @Attn.forward Toy.kernels attn Toy.decode_inputs Toy.empty_cache
       = Raise TypeError.
Proof.
  eexists. split; [vm_compute; reflexivity|].
  refine (proj2 (@gptq_module_never_forwards Toy.kernels "attn"
                   (Toy.config 2 1 4 (Some "gptq"%string) false)
                   (Toy.weights (Toy.store 8 4) 0 1) _ _) eq_refl _ _).
  vm_compute. reflexivity.
Defined.

Lemma split_dim1_inv (x a b : tensor) (n m : Z) :
  Attn.split_dim1 x n m = Ok (a, b) ->
  exists c rows,
    x = Mat c rows /\ 0 <= n /\ 0 <= m /\ n + m = Z.of_nat c
    /\ a = Mat (Z.to_nat n) (take (Z.to_nat n) <$> rows)
    /\ b = Mat (Z.to_nat m) (drop (Z.to_nat n) <$> rows).
Proof.
  unfold Attn.split_dim1. destruct x as [v|c rows]; [done|].
  destruct (Z.ltb_spec n 0); [done|]. destruct (Z.ltb_spec m 0); [done|].
  destruct (Z.eqb_spec (n + m) (Z.of_nat c)); [|done]. simpl.
  intros [= <- <-]. by exists c, rows.
Qed.

(** Whatever a forward call that returns has done to the layer's cache, it
    has launched [reshape_and_cache] on the caller's slots and then one
    attention kernel, nothing else, and every slot the caller did not name
    holds what it held before. *)
Theorem forward_touches_named_slots_only `{Kernels} (self : Attn.t)
    (x : Attn.inputs) (st st' : Attn.state) (out : tensor) :
  Attn.forward self x st = Ok (out, st') ->
  Attn.calls st'
  = Attn.calls st
    ++ [Attn.ReshapeAndCache (Attn.slots x);
        match Attn.cu_seqlen_prefill x with
        | Some cu => Attn.FlashAttention cu
        | None => Attn.PagedAttention (Attn.block_tables x)
        end]
  /\ forall s, s ∉ Attn.slots x ->
       Attn.key_cache st' !! s = Attn.key_cache st !! s
       /\ Attn.value_cache st' !! s = Attn.value_cache st !! s.
Proof.
  unfold Attn.forward. intros Hf.
  apply bind_ok in Hf as [layer [_ Hf]].
  apply bind_ok in Hf as [[q kv] [_ Hf]].
  apply bind_ok in Hf as [q' [_ Hf]].
  apply bind_ok in Hf as [kv' [_ Hf]].
  apply bind_ok in Hf as [[k v] [_ Hf]].
  simpl in Hf.
  destruct (Attn.cu_seqlen_prefill x) as [cu|];
    apply bind_ok in Hf as [o [_ Hf]]; injection Hf as _ <-; simpl;
    (split; [by rewrite <- (assoc_L (++))|]);
    intros s Hs; by apply cache_writes_preserve.
Qed.

Lemma forward_touches_named_slots_only_witness :
  exists out st',
    @Attn.forward Toy.kernels Toy.attention Toy.prefill_inputs Toy.empty_cache
    = Ok (out, st')
    /\ Attn.calls st'
       = [Attn.ReshapeAndCache [5; 9]; Attn.FlashAttention (Vec [0; 2])]
    /\ Attn.key_cache st' !! 7 = None.
Proof.
  eexists. eexists. split; [vm_compute; reflexivity|].
  edestruct (@forward_touches_named_slots_only Toy.kernels Toy.attention
               Toy.prefill_inputs Toy.empty_cache) as [Hcalls Hkeep].
  - vm_compute. reflexivity.
  - split; [exact Hcalls|].
    refine (proj1 (Hkeep 7 _)). simpl.
    rewrite !not_elem_of_cons. repeat split; try lia. apply not_elem_of_nil.
Defined.

(** A forward call on activations whose projected width is not the sum of
    the two split sizes fails in [split], before anything is written. *)
Theorem forward_rejects_wrong_width `{Kernels} (self : Attn.t)
    (x : Attn.inputs) (st : Attn.state) (layer : ColumnLinear) (c : nat)
    (rows : list (list Z)) :
  Attn.query_key_value self = Some layer ->
  column_forward layer (Attn.hidden_states x) = Mat c rows ->
  Z.of_nat c <> Attn.head_size self * Attn.num_heads self
                + 2 * Attn.head_size self * Attn.num_key_value_heads self ->
  Attn.forward self x st = Raise RuntimeError.
Proof.
  intros Hl Hc Hne. unfold Attn.forward. rewrite Hl. simpl. rewrite Hc.
  unfold Attn.split_dim1.
  destruct (Z.eqb_spec (Attn.head_size self * Attn.num_heads self
                         + 2 * Attn.head_size self
                           * Attn.num_key_value_heads self) (Z.of_nat c));
    [lia|].
  by rewrite !orb_true_r.
Qed.

Lemma forward_rejects_wrong_width_witness :
  exists attn,
    Attn.init "attn" (Toy.config 6 3 12 None false)
      (Toy.weights (Toy.store 24 12) 0 2) = Ok attn
    /\ @Attn.forward Toy.kernels attn Toy.decode_inputs Toy.empty_cache
       = Raise RuntimeError.
Proof.
  eexists. split; [vm_compute; reflexivity|].
  eapply (@forward_rejects_wrong_width Toy.kernels).
  - reflexivity.
  - vm_compute. reflexivity.
  - simpl. lia.
Defined.

Lemma attention_bounds_inv (q_size kv_size world_size rank : Z)
    (b : qkv_bounds) :
  attention_bounds q_size kv_size world_size rank = Ok b ->
  world_size <> 0 /\ (world_size | q_size) /\ (world_size | kv_size).
Proof.
  intros Hb.
  destruct (decide (world_size = 0)) as [->|Hws].
  { unfold attention_bounds, mod_ in Hb. done. }
  split; [done|].
  destruct (decide (q_size `mod` world_size = 0)) as [Hq|Hq];
    [destruct (decide (kv_size `mod` world_size = 0)) as [Hk|Hk]|].
  - split; by apply Z.mod_divide.
  - rewrite attention_bounds_raises in Hb; [done|].
    right. intros Hd. by apply Z.mod_divide in Hd.
  - rewrite attention_bounds_raises in Hb; [done|].
    left. intros Hd. by apply Z.mod_divide in Hd.
Qed.

Lemma row_layout_weight_inv (config : Config) (prefix : string)
    (weights : Weights) (bias : bool) (q_size kv_size : Z) (c : nat)
    (rows : list (list Z)) (l : ColumnLinear) :
  let world_size := pg_size (process_group weights) in
  let r := pg_rank (process_group weights) in
  _load_attention config prefix weights bias q_size kv_size = Ok l ->
  transpose config = false ->
  _get_slice weights (prefix +:+ ".c_attn.weight") = Ok (Mat c rows) ->
  0 < world_size -> 0 <= r < world_size -> 0 <= q_size -> 0 <= kv_size ->
  (world_size | q_size) /\ (world_size | kv_size)
  /\ weight_rows l
     = map (to_dtype weights) <$> shard_rows rows q_size kv_size world_size r.
Proof.
  intros ws r Hl Htr Hw Hws Hr Hq Hkv.
  unfold _load_attention in Hl. rewrite Hw in Hl. simpl in Hl.
  apply bind_ok in Hl as [b [Hb Hl]]. fold ws r in Hb.
  destruct (attention_bounds_inv _ _ _ _ _ Hb) as (_ & Hdq & Hdk).
  split; [done|]. split; [done|].
  rewrite attention_bounds_ok in Hb by (done || lia). injection Hb as <-.
  rewrite Htr in Hl. simpl in Hl.
  pose proof (slice_shard_block rows 0 q_size ws r Hws Hr (Z.le_refl 0) Hq Hdq) as E1.
  pose proof (slice_shard_block rows q_size kv_size ws r Hws Hr Hq Hkv Hdk) as E2.
  pose proof (slice_shard_block rows (q_size + kv_size) kv_size ws r Hws Hr
                ltac:(lia) Hkv Hdk) as E3.
  rewrite !Z.add_0_l in E1.
  rewrite E1, E2, E3 in Hl.
  destruct (decide (c = c)); [|done]. simpl in Hl.
  destruct (decide (c = c)); [|done]. simpl in Hl.
  apply bind_ok in Hl as [bs [_ Hl]]. injection Hl as <-. done.
Qed.

Lemma shard_rows_length {A} (l : list A) (q_size kv_size world_size r : Z) :
  0 < world_size -> 0 <= r < world_size -> 0 <= q_size -> 0 <= kv_size ->
  (world_size | q_size) -> (world_size | kv_size) ->
  Z.of_nat (length l) = q_size + 2 * kv_size ->
  Z.of_nat (length (shard_rows l q_size kv_size world_size r))
  = q_size `div` world_size + 2 * (kv_size `div` world_size).
Proof.
  intros Hws Hr Hq Hkv Hdq Hdk Hlen.
  destruct (block_bounds q_size world_size r) as [Hqb Hqb']; [done..|].
  destruct (block_bounds kv_size world_size r) as [Hkb Hkb']; [done..|].
  unfold shard_rows. rewrite !length_app.
  rewrite (shard_block_length l 0 q_size) by lia.
  rewrite (shard_block_length l q_size kv_size) by lia.
  rewrite (shard_block_length l (q_size + kv_size) kv_size) by lia.
  lia.
Qed.

(** A module built in the row layout holds a fused projection with
    [head_size * num_heads] query rows and the shard's part of the
    [kv_size] key rows and value rows.  This is the width the forward pass
    splits, [head_size * num_heads + 2 * head_size * num_key_value_heads],
    exactly when the shard count divides the number of key/value heads. *)
Theorem constructed_projection_rows (prefix : string) (config : Config)
    (weights : Weights) (attn : Attn.t) (c : nat) (rows : list (list Z)) :
  let world_size := pg_size (process_group weights) in
  let heads := Cfg.num_attention_heads (shell config) in
  let kv_heads := Cfg.num_key_value_heads (shell config) in
  Attn.init prefix config weights = Ok attn ->
  transpose config = false ->
  quantize config <> Some "gptq"%string ->
  0 < world_size -> 0 <= pg_rank (process_group weights) < world_size ->
  0 < heads -> 0 <= kv_heads -> 0 < Attn.head_size attn ->
  _get_slice weights (prefix +:+ ".c_attn.weight") = Ok (Mat c rows) ->
  Z.of_nat (length rows) = (heads + 2 * kv_heads) * Attn.head_size attn ->
  exists layer,
    Attn.query_key_value attn = Some layer
    /\ Z.of_nat (length (weight_rows layer))
       = Attn.head_size attn * Attn.num_heads attn
         + 2 * ((kv_heads * Attn.head_size attn) `div` world_size)
    /\ ((world_size | kv_heads)
        <-> Z.of_nat (length (weight_rows layer))
            = Attn.head_size attn * Attn.num_heads attn
              + 2 * Attn.head_size attn * Attn.num_key_value_heads attn).
Proof.
  intros ws heads kv_heads Hinit Htr Hq Hws Hr Hh Hkv Hhs Hw Hlen.
  destruct (init_ok_inv _ _ _ _ Hinit)
    as (_ & _ & _ & _ & _ & _ & Hmod & Hnh & Hnkv & Hload & _).
  fold ws heads kv_heads in Hmod, Hnh, Hnkv, Hload.
  unfold load_attention in Hload.
  destruct (decide (quantize config = Some "gptq"%string)); [done|].
  apply bind_ok in Hload as [layer [Hlayer Hsome]]. injection Hsome as Hsome.
  destruct (row_layout_weight_inv _ _ _ _ _ _ c rows layer Hlayer Htr Hw)
    as (Hdq & Hdk & Hrows); try done; try nia.
  exists layer. split; [done|].
  assert (Hrowlen : Z.of_nat (length (weight_rows layer))
            = (heads * Attn.head_size attn) `div` ws
              + 2 * ((kv_heads * Attn.head_size attn) `div` ws)).
  { rewrite Hrows, length_fmap. apply shard_rows_length; try done; nia. }
  assert (Hqrows : (heads * Attn.head_size attn) `div` ws
                   = Attn.head_size attn * Attn.num_heads attn).
  { rewrite Hnh. apply Z.mod_divide in Hmod as [a Ha]; [|lia].
    rewrite Ha. rewrite Z.div_mul by lia.
    replace (a * ws * Attn.head_size attn)
      with (a * Attn.head_size attn * ws) by lia.
    rewrite Z.div_mul by lia. lia. }
  split; [lia|].
  rewrite Hrowlen, Hqrows, Hnkv.
  destruct Hdk as [k Hk]. rewrite Hk, Z.div_mul by lia.
  split.
  - intros [a Ha]. rewrite Ha, Z.div_mul by lia. nia.
  - intros Heq. apply Z.mod_divide; [lia|].
    pose proof (Z.div_mod kv_heads ws ltac:(lia)) as Hdm.
    pose proof (Z.mod_pos_bound kv_heads ws Hws) as Hb.
    assert (kv_heads `mod` ws * Attn.head_size attn = 0) by nia.
    nia.
Qed.

Lemma constructed_projection_rows_witness :
  exists attn layer,
    Attn.init "attn" (Toy.config 6 3 12 None false)
      (Toy.weights (Toy.store 24 12) 0 2) = Ok attn
    /\ Attn.query_key_value attn = Some layer
    /\ Z.of_nat (length (weight_rows layer)) = 12
    /\ Attn.head_size attn * Attn.num_heads attn
       + 2 * Attn.head_size attn * Attn.num_key_value_heads attn = 10.
Proof.
  eexists.
  edestruct (constructed_projection_rows "attn" (Toy.config 6 3 12 None false)
               (Toy.weights (Toy.store 24 12) 0 2))
    as [layer [Hlayer [Hrows _]]];
    [vm_compute; reflexivity | reflexivity | done | simpl; lia | simpl; lia
    | simpl; lia | simpl; lia | simpl; lia | reflexivity | reflexivity | ].
  exists layer. split; [reflexivity|]. split; [exact Hlayer|].
  split; [etrans; [exact Hrows|reflexivity] | reflexivity].
Defined.

(** ** The model stack and the head *)

Lemma layer_forward_effect `{Kernels} (self : Layer.t)
    (hidden_states : tensor) (residual : option tensor) (cos sin : tensor)
    (cu : option tensor) (cache : Attn.state) (block_tables : tensor)
    (slots : list Z) (input_lengths : tensor) (max_s : Z)
    (out res : tensor) (cache' : Attn.state) :
  Layer.forward self hidden_states residual cos sin cu cache block_tables
    slots input_lengths max_s = Ok (out, res, cache') ->
  cache_stepped slots (attention_call cu block_tables) cache cache'.
Proof.
  unfold Layer.forward. destruct (layer_norm _ _ _) as [normed res0].
  intros Hf. apply bind_ok in Hf as [[attn_out c1] [Hattn Hf]].
  destruct (layer_norm _ attn_out _) as [n2 r2]. injection Hf as _ _ <-.
  unfold Attn.forward in Hattn. simpl in Hattn.
  apply bind_ok in Hattn as [layer [_ Hattn]].
  apply bind_ok in Hattn as [[q kv] [_ Hattn]].
  apply bind_ok in Hattn as [q' [_ Hattn]].
  apply bind_ok in Hattn as [kv' [_ Hattn]].
  apply bind_ok in Hattn as [[k v] [_ Hattn]].
  simpl in Hattn. unfold cache_stepped, attention_call.
  destruct cu as [cu|];
    apply bind_ok in Hattn as [o [_ Hattn]]; injection Hattn as _ <-; simpl;
    (split; [by rewrite <- (assoc_L (++))|]);
    intros s Hs; by apply cache_writes_preserve.
Qed.

Lemma run_layers_inv `{Kernels} (ls : list Layer.t) (i : nat)
    (x : Model.inputs) (cos sin : tensor) (hidden_states : tensor)
    (residual : option tensor) (done : list Attn.state)
    (h : tensor) (r : option tensor) (out : list Attn.state) :
  Model.run_layers ls i x cos sin hidden_states residual done = Ok (h, r, out) ->
  exists new,
    out = done ++ new
    /\ length new = length ls
    /\ Forall2 (cache_stepped (Model.slots x)
                  (attention_call (Model.cu_seqlen_prefill x)
                     (Model.block_tables x)))
         (take (length ls) (drop i (Model.kv_cache x))) new.
Proof.
  revert i hidden_states residual done.
  induction ls as [|layer ls IH]; intros i hs res done Hrun.
  - simpl in Hrun. injection Hrun as _ _ <-.
    exists []. split; [by rewrite app_nil_r|]. split; [done|]. constructor.
  - simpl in Hrun.
    destruct (Model.kv_cache x !! i) as [c|] eqn:Hc; [|done]. simpl in Hrun.
    apply bind_ok in Hrun as [[[h1 r1] c1] [Hlayer Hrun]].
    apply layer_forward_effect in Hlayer.
    apply IH in Hrun as [new [-> [Hlen HF]]].
    exists (c1 :: new). split; [by rewrite <- (assoc_L (++))|].
    split; [simpl; lia|].
    rewrite (drop_S _ c i Hc). simpl. by constructor.
Qed.

(** A forward pass of the model stack that returns needed at least one
    layer and a cache for every layer, and returns as many caches as it was
    given: the cache of each layer has received one cache write on the
    caller's slots and one attention call, the same kind for all layers,
    with all other slots untouched; caches beyond the last layer come back
    as they were. *)
Theorem model_forward_steps_every_layer_cache `{Kernels} (self : Model.t)
    (x : Model.inputs) (h : tensor) (caches : list Attn.state) :
  Model.forward self x = Ok (h, caches) ->
  Model.layers self <> []
  /\ (length (Model.layers self) <= length (Model.kv_cache x))%nat
  /\ length caches = length (Model.kv_cache x)
  /\ Forall2 (cache_stepped (Model.slots x)
                (attention_call (Model.cu_seqlen_prefill x)
                   (Model.block_tables x)))
       (take (length (Model.layers self)) (Model.kv_cache x))
       (take (length (Model.layers self)) caches)
  /\ drop (length (Model.layers self)) caches
     = drop (length (Model.layers self)) (Model.kv_cache x).
Proof.
  unfold Model.forward. intros Hf.
  apply bind_ok in Hf as [layer0 [H0 Hf]].
  assert (Hne : Model.layers self <> []).
  { intros Hnil. by rewrite Hnil in H0. }
  destruct (get_cos_sin _ _ _) as [cos sin].
  apply bind_ok in Hf as [[[h1 r1] out] [Hrun Hf]].
  destruct (layer_norm _ _ _) as [h2 r2]. injection Hf as _ <-.
  apply run_layers_inv in Hrun as [new [-> [Hlen HF]]]. simpl in *.
  rewrite drop_0 in HF.
  pose proof (Forall2_length _ _ _ HF) as Hl. rewrite length_take in Hl.
  assert (Hle : (length (Model.layers self) <= length (Model.kv_cache x))%nat)
    by lia.
  split; [done|]. split; [done|]. split; [|split].
  - rewrite length_app, length_drop. lia.
  - by rewrite take_app_length' by done.
  - by rewrite drop_app_length' by done.
Qed.

Lemma model_forward_steps_every_layer_cache_witness :
  exists h c',
    @Model.forward Toy.kernels (CausalLM.model Toy.causal_lm) Toy.model_inputs
    = Ok (h, [c'])
    /\ Attn.calls c'
       = [Attn.ReshapeAndCache [5; 9; 11]; Attn.FlashAttention (Vec [0; 3])].
Proof.
  eexists. eexists. split; [vm_compute; reflexivity|].
  edestruct (@model_forward_steps_every_layer_cache Toy.kernels
               (CausalLM.model Toy.causal_lm) Toy.model_inputs)
    as (_ & _ & _ & HF & _); [vm_compute; reflexivity|].
  simpl in HF. apply Forall2_cons_1 in HF as [[Hcalls _] _]. exact Hcalls.
Defined.





(** ** Constructing the feed-forward block and the model *)

Lemma str_contains_spec (s sub : string) :
  str_contains s sub = true
  <-> exists pre post, s = (pre +:+ sub +:+ post)%string.
Proof.
  induction s as [|a s IH]; simpl.
  - destruct (startswith "" sub) eqn:Hsw.
    + split; [intros _|done]. apply startswith_spec in Hsw as [post Hp].
      by exists ""%string, post.
    + split; [done|]. intros [pre [post Hs]].
      destruct pre; [|done]. simpl in Hs.
      assert (startswith "" sub = true) by (apply startswith_spec; eauto).
      congruence.
  - destruct (startswith (String a s) sub) eqn:Hsw.
    + split; [intros _|done]. apply startswith_spec in Hsw as [post Hp].
      by exists ""%string, post.
    + rewrite IH. split.
      * intros [pre [post ->]]. by exists (String a pre), post.
      * intros [pre [post Hs]]. destruct pre as [|b pre].
        -- simpl in Hs.
           assert (startswith (String a s) sub = true)
             by (apply startswith_spec; eauto).
           congruence.
        -- injection Hs as -> ->. by exists pre, post.
Qed.

(** The activation of the feed-forward block: the tanh approximation of
    gelu for exactly the names ["gelu_fast"] and ["gelu_pytorch_tanh"];
    exact gelu for every other name that contains ["gelu"], whatever the
    table of [transformers] holds under that name; the table's entry for
    the names that do not contain ["gelu"]. *)
Theorem gelu_names_bypass_activation_table (act : string) :
  (select_activation act = Gelu "tanh"
   <-> act = "gelu_fast"%string \/ act = "gelu_pytorch_tanh"%string)
  /\ (select_activation act = Gelu "none"
      <-> (exists pre post, act = (pre +:+ "gelu" +:+ post)%string)
          /\ act <> "gelu_fast"%string /\ act <> "gelu_pytorch_tanh"%string)
  /\ (select_activation act = Act2Fn act
      <-> ~ exists pre post, act = (pre +:+ "gelu" +:+ post)%string)
  /\ forall name, select_activation act = Act2Fn name -> name = act.
Proof.
  unfold select_activation.
  pose proof (str_contains_spec act "gelu") as Hspec.
  destruct (str_contains act "gelu") eqn:Hc; simpl.
  - assert (Hin : exists pre post, act = (pre +:+ "gelu" +:+ post)%string)
      by by apply Hspec.
    destruct (bool_decide_reflect
                (act ∈ ["gelu_fast"; "gelu_pytorch_tanh"]%string)) as [Hm|Hm].
    + assert (act = "gelu_fast"%string \/ act = "gelu_pytorch_tanh"%string).
      { apply elem_of_cons in Hm as [->|Hm]; [by left|].
        apply elem_of_cons in Hm as [->|Hm]; [by right|].
        by apply elem_of_nil in Hm. }
      repeat split; try done; tauto.
    + assert (act <> "gelu_fast"%string /\ act <> "gelu_pytorch_tanh"%string).
      { split; intros ->; apply Hm; repeat constructor. }
      repeat split; try done; tauto.
  - assert (Hout : ~ exists pre post, act = (pre +:+ "gelu" +:+ post)%string).
    { intros Hin. apply Hspec in Hin. done. }
    split; [|split; [|split]].
    + split; [done|]. intros [->| ->]; vm_compute in Hc; done.
    + split; [done|]. intros [Hin _]. tauto.
    + split; [by intros _ | done].
    + by intros name [= <-].
Qed.

Lemma py_str_inj (i j : Z) : py_str i = py_str j -> i = j.
Proof.
  unfold py_str. intros Hs.
  assert (Hnn : forall z, Z.to_int z <> Decimal.Pos Decimal.Nil
                          /\ Z.to_int z <> Decimal.Neg Decimal.Nil).
  { intros [|p|p]; simpl; split; try done; intros [= Hp];
      by apply DecimalPos.Unsigned.to_uint_nonnil in Hp. }
  assert (Hi : NilZero.int_of_string (NilZero.string_of_int (Z.to_int i))
               = Some (Z.to_int i)) by (apply NilZero.isi; apply Hnn).
  assert (Hj : NilZero.int_of_string (NilZero.string_of_int (Z.to_int j))
               = Some (Z.to_int j)) by (apply NilZero.isi; apply Hnn).
  rewrite Hs, Hj in Hi. injection Hi as Hij.
  rewrite <- (DecimalZ.of_to i), <- (DecimalZ.of_to j). by rewrite Hij.
Qed.

Lemma mapM_ok_inv {A B} (f : A -> result B) (l : list A) (ys : list B) :
  mapM f l = Ok ys -> Forall2 (fun x y => f x = Ok y) l ys.
Proof.
  revert ys. induction l as [|x l IH]; intros ys Hm.
  - injection Hm as <-. constructor.
  - change (f x ≫= (fun y => mapM f l ≫= fun k => mret (y :: k)) = Ok ys) in Hm.
    apply bind_ok in Hm as [y [Hy Hm]].
    apply bind_ok in Hm as [k [Hk Hm]]. injection Hm as <-.
    constructor; [done | by apply IH].
Qed.

Lemma layer_init_attention `{Loaders} (layer_id : Z) (config : Config)
    (weights : Weights) (layer : Layer.t) :
  FlashShellLayer_init layer_id config weights = Ok layer ->
  Attn.init ("transformer.h." +:+ py_str layer_id +:+ ".attn") config weights
  = Ok (Layer.self_attn layer)
  /\ ShellMLP_init ("transformer.h." +:+ py_str layer_id +:+ ".mlp") config
       weights = Ok (Layer.mlp layer).
Proof.
  unfold FlashShellLayer_init. intros Hl.
  apply bind_ok in Hl as [attn [Hattn Hl]].
  apply bind_ok in Hl as [mlp [Hmlp Hl]].
  apply bind_ok in Hl as [ln1 [_ Hl]].
  apply bind_ok in Hl as [ln2 [_ Hl]]. injection Hl as <-. done.
Qed.

Lemma model_init_inv `{Loaders} (config : Config) (weights : Weights)
    (model : Model.t) (geometry : ModelGeometry) :
  FlashShellModel_init config weights = Ok (model, geometry) ->
  Forall2 (fun layer_id layer =>
             FlashShellLayer_init layer_id config weights = Ok layer)
    (ranks (Cfg.num_hidden_layers (shell config))) (Model.layers model)
  /\ exists layer0,
       Model.layers model !! 0%nat = Some layer0
       /\ geometry
          = {| geo_head_size := Attn.head_size (Layer.self_attn layer0);
               geo_num_heads := Attn.num_heads (Layer.self_attn layer0);
               geo_num_key_value_heads :=
                 Attn.num_key_value_heads (Layer.self_attn layer0) |}.
Proof.
  unfold FlashShellModel_init. intros Hm.
  apply bind_ok in Hm as [emb [_ Hm]].
  apply bind_ok in Hm as [layers [Hlayers Hm]].
  apply bind_ok in Hm as [norm [_ Hm]].
  apply bind_ok in Hm as [layer0 [H0 Hm]].
  injection Hm as <- <-. simpl. split; [by apply mapM_ok_inv|].
  exists layer0. destruct layers as [|l ls]; [done|]. by injection H0 as ->.
Qed.

Lemma model_init_facts `{Loaders} (config : Config) (weights : Weights)
    (model : Model.t) (geometry : ModelGeometry) :
  FlashShellModel_init config weights = Ok (model, geometry) ->
  let world_size := pg_size (process_group weights) in
  0 < Cfg.num_hidden_layers (shell config)
  /\ geo_head_size geometry
     = Cfg.hidden_size (shell config)
       `div` Cfg.num_attention_heads (shell config)
  /\ geo_num_heads geometry
     = Cfg.num_attention_heads (shell config) `div` world_size
  /\ geo_num_key_value_heads geometry
     = Cfg.num_key_value_heads (shell config) `div` world_size
  /\ (world_size | Cfg.num_attention_heads (shell config)).
Proof.
  intros Hm ws.
  apply model_init_inv in Hm as [HF [layer0 [H0 ->]]].
  pose proof (Forall2_length _ _ _ HF) as Hlen.
  unfold ranks in Hlen. rewrite length_fmap, length_seq in Hlen.
  assert (Hpos : 0 < Cfg.num_hidden_layers (shell config)).
  { apply lookup_lt_Some in H0. lia. }
  destruct (Forall2_lookup_r _ _ _ _ _ HF H0) as [id [Hid Hinit]].
  apply layer_init_attention in Hinit as [Hattn _].
  destruct (init_ok_inv _ _ _ _ Hattn)
    as (Hws & _ & _ & Hhs & _ & _ & Hmod & Hnh & Hnkv & _).
  split; [done|]. simpl. split; [done|]. split; [done|]. split; [done|].
  by apply Z.mod_divide.
Qed.

(** A model that [FlashShellModel.__init__] returns has
    [num_hidden_layers] layers, at least one, layer [i] being built from
    the tensors under ["transformer.h.i"], a prefix no other layer has; the
    head size and the per-shard head counts it reports are
    [hidden_size // num_attention_heads], [num_attention_heads //
    world_size] and [num_key_value_heads // world_size], and the shard
    count divides the number of query heads. *)
Theorem model_init_layers_and_geometry `{Loaders} (config : Config)
    (weights : Weights) (model : Model.t) (geometry : ModelGeometry) :
  FlashShellModel_init config weights = Ok (model, geometry) ->
  let world_size := pg_size (process_group weights) in
  0 < Cfg.num_hidden_layers (shell config)
  /\ Z.of_nat (length (Model.layers model))
     = Cfg.num_hidden_layers (shell config)
  /\ (forall (i : nat) layer,
        Model.layers model !! i = Some layer ->
        Attn.init ("transformer.h." +:+ py_str (Z.of_nat i) +:+ ".attn")
          config weights = Ok (Layer.self_attn layer))
  /\ (forall i j : Z,
        ("transformer.h." +:+ py_str i)%string
        = ("transformer.h." +:+ py_str j)%string -> i = j)
  /\ geo_head_size geometry
     = Cfg.hidden_size (shell config)
       `div` Cfg.num_attention_heads (shell config)
  /\ geo_num_heads geometry
     = Cfg.num_attention_heads (shell config) `div` world_size
  /\ geo_num_key_value_heads geometry
     = Cfg.num_key_value_heads (shell config) `div` world_size
  /\ (world_size | Cfg.num_attention_heads (shell config)).
Proof.
  intros Hm ws.
  destruct (model_init_facts _ _ _ _ Hm) as (Hpos & Hhs & Hnh & Hnkv & Hdiv).
  apply model_init_inv in Hm as [HF _].
  pose proof (Forall2_length _ _ _ HF) as Hlen.
  unfold ranks in Hlen. rewrite length_fmap, length_seq in Hlen.
  split; [done|]. split; [lia|]. split; [|split].
  - intros i layer Hi.
    destruct (Forall2_lookup_r _ _ _ _ _ HF Hi) as [id [Hid Hinit]].
    apply lookup_lt_Some in Hi.
    rewrite ranks_lookup in Hid by lia. injection Hid as <-.
    by apply layer_init_attention in Hinit as [Hattn _].
  - intros i j Hij. apply py_str_inj.
    by apply (inj (String.append "transformer.h.")) in Hij.
  - done.
Qed.

Lemma model_init_layers_and_geometry_witness :
  exists model geometry,
    @FlashShellModel_init ToyModel.loaders (Toy.config 2 1 4 None false)
      (Toy.weights ToyModel.store 0 1) = Ok (model, geometry)
    /\ length (Model.layers model) = 2%nat
    /\ geo_head_size geometry = 2.
Proof.
  eexists. eexists. split; [vm_compute; reflexivity|].
  edestruct (@model_init_layers_and_geometry ToyModel.loaders
               (Toy.config 2 1 4 None false) (Toy.weights ToyModel.store 0 1))
    as (_ & Hlen & _ & _ & Hhs & _); [vm_compute; reflexivity|].
  split; [reflexivity | exact Hhs].
Defined.

Lemma attention_init_value_error (prefix : string) (config : Config)
    (weights : Weights) :
  pg_size (process_group weights) <> 0 ->
  Cfg.num_attention_heads (shell config) <> 0 ->
  Cfg.hidden_size (shell config)
  `div` Cfg.num_attention_heads (shell config) <> 0 ->
  ~ (pg_size (process_group weights) | Cfg.num_attention_heads (shell config)) ->
  Attn.init prefix config weights = Raise ValueError.
Proof.
  intros Hws Hh Hhs Hdiv. unfold Attn.init.
  rewrite (floordiv_ok (Cfg.hidden_size (shell config))
             (Cfg.num_attention_heads (shell config))) by done. simpl.
  unfold pow_neg_half.
  destruct (decide (Cfg.hidden_size (shell config)
                    `div` Cfg.num_attention_heads (shell config) = 0));
    [done|]. simpl.
  unfold mod_. destruct (decide (pg_size (process_group weights) = 0));
    [done|]. simpl.
  destruct (Z.eqb_spec (Cfg.num_attention_heads (shell config)
                        `mod` pg_size (process_group weights)) 0) as [Hm|];
    [|done].
  exfalso. apply Hdiv. by apply Z.mod_divide.
Qed.

Lemma mapM_head_raises {A B} (f : A -> result B) (x : A) (l : list A)
    (e : exn) :
  f x = Raise e -> mapM f (x :: l) = Raise e.
Proof.
  intros Hx.
  change (f x ≫= (fun y => mapM f l ≫= fun k => mret (y :: k)) = Raise e).
  by rewrite Hx.
Qed.

(** Building the whole model fails when the configuration asks for no
    layer or when the shard count does not divide the number of query
    heads; in the second case, once the embedding is loaded, the error is
    the [ValueError] of the first layer's attention. *)
Theorem causal_lm_init_rejects_bad_config `{Loaders} (config : Config)
    (weights : Weights) :
  let world_size := pg_size (process_group weights) in
  let heads := Cfg.num_attention_heads (shell config) in
  (Cfg.num_hidden_layers (shell config) <= 0 \/ ~ (world_size | heads) ->
   raises (FlashShellForCausalLM_init config weights))
  /\ (0 < Cfg.num_hidden_layers (shell config) ->
      world_size <> 0 -> heads <> 0 ->
      Cfg.hidden_size (shell config) `div` heads <> 0 ->
      ~ (world_size | heads) ->
      is_ok (embedding_load "transformer.wte" weights true) = true ->
      FlashShellForCausalLM_init config weights = Raise ValueError).
Proof.
  intros ws heads. split.
  - intros Hbad.
    destruct (FlashShellForCausalLM_init config weights) as [[m g]|e] eqn:Hinit;
      [|by exists e].
    exfalso. unfold FlashShellForCausalLM_init in Hinit.
    apply bind_ok in Hinit as [[model geometry] [Hmodel _]].
    destruct (model_init_facts _ _ _ _ Hmodel) as (Hpos & _ & _ & _ & Hdiv).
    destruct Hbad as [Hle|Hnd]; [lia | by apply Hnd].
  - intros Hpos Hws Hh Hhs Hnd Hemb.
    unfold FlashShellForCausalLM_init, FlashShellModel_init.
    destruct (embedding_load "transformer.wte" weights true) as [emb|];
      [|done]. simpl.
    rewrite ranks_cons by done.
    rewrite (mapM_head_raises _ _ _ ValueError); [done|].
    unfold FlashShellLayer_init.
    by rewrite attention_init_value_error.
Qed.

Lemma causal_lm_init_rejects_bad_config_witness :
  @FlashShellForCausalLM_init ToyModel.loaders (Toy.config 3 1 6 None false)
    (Toy.weights ToyModel.store 0 2) = Raise ValueError.
Proof.
  apply (proj2 (@causal_lm_init_rejects_bad_config ToyModel.loaders
                  (Toy.config 3 1 6 None false)
                  (Toy.weights ToyModel.store 0 2)));
    try done; try (simpl; lia).
  intros [k Hk]. simpl in Hk. lia.
Defined.

(** ** Bringing the model up *)

(** [FlashShell.__init__] fails on a configuration without an
    architecture name and otherwise overwrites what [ShellConfig.__init__]
    stored: the model works with the checkpoint's [num_query_groups] as its
    number of key/value heads, whatever [num_key_value_heads] was passed
    or defaulted, with [activation_function] as its activation and [n_embd]
    as its intermediate size; the other dimensions are kept. *)
Theorem configure_overrides_shell_config (a : ShellConfigArgs)
    (kw : PretrainedKwargs) (quantize_ : option string) (device_ : string)
    (use_medusa_ : option string) :
  (kw_architectures kw = None ->
   FlashShell_configure (ShellConfig_init a kw) quantize_ device_ use_medusa_
   = Raise TypeError)
  /\ (kw_architectures kw = Some [] ->
      FlashShell_configure (ShellConfig_init a kw) quantize_ device_
        use_medusa_ = Raise IndexError)
  /\ forall cfg,
       FlashShell_configure (ShellConfig_init a kw) quantize_ device_
         use_medusa_ = Ok cfg ->
       Cfg.num_key_value_heads (shell cfg) = kw_num_query_groups kw
       /\ Cfg.hidden_act (shell cfg) = kw_activation_function kw
       /\ Cfg.intermediate_size (shell cfg) = kw_n_embd kw
       /\ Cfg.num_attention_heads (shell cfg) = arg_num_attention_heads a
       /\ Cfg.hidden_size (shell cfg) = arg_hidden_size a
       /\ Cfg.num_hidden_layers (shell cfg) = arg_num_hidden_layers a
       /\ quantize cfg = quantize_
       /\ device cfg = device_
       /\ use_medusa cfg = use_medusa_.
Proof.
  unfold FlashShell_configure, first_architecture. simpl.
  split; [|split].
  - by intros ->.
  - by intros ->.
  - intros cfg. destruct (kw_architectures kw) as [[|arch rest]|]; try done.
    simpl. by intros [= <-].
Qed.

Lemma configure_overrides_shell_config_witness :
  exists cfg,
    FlashShell_configure
      (ShellConfig_init ShellConfig_defaults (Toy.kw "CodeShellForCausalLM"))
      None "cuda:0" None = Ok cfg
    /\ Cfg.num_key_value_heads (shell cfg) = 8
    /\ Cfg.num_attention_heads (shell cfg) = 32.
Proof.
  eexists. split; [reflexivity|].
  destruct (proj2 (proj2 (configure_overrides_shell_config ShellConfig_defaults
                            (Toy.kw "CodeShellForCausalLM") None "cuda:0" None))
              _ eq_refl) as (Hkv & _ & _ & Hh & _).
  split; [exact Hkv | exact Hh].
Defined.

(** [FlashShell.__init__] refuses to start without an accelerator,
    before anything is loaded.  When it returns, the device is this rank's
    and the dtype defaults to float16; the number of layers, the head size
    and the number of key/value heads it hands on are those of the loaded
    configuration: [num_hidden_layers], [hidden_size //
    num_attention_heads], and [num_query_groups] divided by the shard
    count of the weights. *)
Theorem flash_shell_init_geometry `{Loaders} (env : Runtime)
    (quantize_ dtype_ use_medusa_ : option string) :
  (cuda_is_available env = false ->
   FlashShell_init env quantize_ dtype_ use_medusa_ = Raise NotImplementedError)
  /\ forall s,
       FlashShell_init env quantize_ dtype_ use_medusa_ = Ok s ->
       exists loaded opened weights,
         load_config env = Ok loaded
         /\ open_weights env (srv_device s) (srv_dtype s) (distributed env)
            = Ok opened
         /\ (if bool_decide (quantize_ ∈ [Some "gptq"; Some "awq"]%string)
             then set_gptq_params env opened = Ok weights
             else weights = opened)
         /\ cuda_is_available env = true
         /\ srv_device s = ("cuda:" +:+ py_str (pg_rank (distributed env)))%string
         /\ srv_dtype s = default "float16"%string dtype_
         /\ srv_rank s = pg_rank (distributed env)
         /\ srv_world_size s = pg_size (distributed env)
         /\ Z.of_nat (srv_num_layers s) = Cfg.num_hidden_layers loaded
         /\ srv_head_size s
            = Cfg.hidden_size loaded `div` Cfg.num_attention_heads loaded
         /\ srv_num_kv_heads s
            = kw_num_query_groups (kwargs loaded)
              `div` pg_size (process_group weights)
         /\ quantize (CausalLM.config (srv_model s)) = quantize_.
Proof.
  split.
  - intros Hc. unfold FlashShell_init. by rewrite Hc.
  - intros s Hs. unfold FlashShell_init in Hs.
    destruct (cuda_is_available env); [|done]. simpl in Hs.
    apply bind_ok in Hs as [[] [_ Hs]].
    apply bind_ok in Hs as [loaded [Hloaded Hs]].
    apply bind_ok in Hs as [config [Hconfig Hs]].
    apply bind_ok in Hs as [w0 [Hopen Hs]].
    apply bind_ok in Hs as [weights [Hgptq Hs]].
    apply bind_ok in Hs as [[model geometry] [Hmodel Hs]].
    injection Hs as <-. simpl.
    unfold FlashShellForCausalLM_init in Hmodel.
    apply bind_ok in Hmodel as [[m g] [Hm Hmodel]].
    apply bind_ok in Hmodel as [head [_ Hmodel]]. injection Hmodel as <- <-.
    destruct (model_init_facts _ _ _ _ Hm) as (Hpos & Hhs & _ & Hnkv & _).
    apply model_init_inv in Hm as [HF _].
    pose proof (Forall2_length _ _ _ HF) as Hlen.
    unfold ranks in Hlen. rewrite length_fmap, length_seq in Hlen.
    unfold FlashShell_configure in Hconfig.
    apply bind_ok in Hconfig as [arch [_ Hconfig]]. injection Hconfig as <-.
    simpl in *.
    exists loaded, w0, weights.
    split; [done|]. split; [done|]. split.
    { destruct (bool_decide _); [done | by injection Hgptq]. }
    repeat split; try done; try lia.
Qed.

Lemma flash_shell_init_geometry_witness :
  @FlashShell_init ToyModel.loaders (ToyModel.runtime false 2 1) None None None
  = Raise NotImplementedError
  /\ exists s,
       @FlashShell_init ToyModel.loaders (ToyModel.runtime true 2 1)
         None None None = Ok s
       /\ srv_num_layers s = 2%nat
       /\ srv_num_kv_heads s = 1.
Proof.
  split.
  - apply (proj1 (@flash_shell_init_geometry ToyModel.loaders
                    (ToyModel.runtime false 2 1) None None None)).
    reflexivity.
  - eexists. split; [vm_compute; reflexivity|]. split; [reflexivity|].
    edestruct (proj2 (@flash_shell_init_geometry ToyModel.loaders
                        (ToyModel.runtime true 2 1) None None None))
      as (loaded & opened & weights & _);
      [vm_compute; reflexivity|].
    reflexivity.
Defined.

(** In the row layout, on a configuration whose query heads and key/value
    heads the shard count divides, with a positive head size and the
    tensors of the attention block in the checkpoint, the constructor
    returns a module: it holds this shard's part of the heads, its blocks
    of the fused weight and bias, and the output projection that
    [load_row] gives. *)
Theorem attention_init_succeeds (prefix : string) (config : Config)
    (weights : Weights) (c : nat) (rows : list (list Z)) (bs : list Z)
    (o : RowLinear) :
  let world_size := pg_size (process_group weights) in
  let r := pg_rank (process_group weights) in
  let heads := Cfg.num_attention_heads (shell config) in
  let kv_heads := Cfg.num_key_value_heads (shell config) in
  let head_size := Cfg.hidden_size (shell config) `div` heads in
  transpose config = false ->
  quantize config <> Some "gptq"%string ->
  0 < world_size -> 0 <= r < world_size ->
  0 < heads -> 0 < kv_heads -> 0 < head_size ->
  (world_size | heads) -> (world_size | kv_heads) ->
  _get_slice weights (prefix +:+ ".c_attn.weight") = Ok (Mat c rows) ->
  _get_slice weights (prefix +:+ ".c_attn.bias") = Ok (Vec bs) ->
  load_row config (prefix +:+ ".c_proj") weights true = Ok o ->
  exists attn,
    Attn.init prefix config weights = Ok attn
    /\ Attn.head_size attn = head_size
    /\ Attn.num_heads attn = heads `div` world_size
    /\ Attn.num_key_value_heads attn = kv_heads `div` world_size
    /\ Attn.num_groups attn
       = (heads `div` world_size) `div` (kv_heads `div` world_size)
    /\ Attn.o_proj attn = o
    /\ Attn.query_key_value attn
       = Some (TensorParallelColumnLinear
                 (get_linear
                    (Dense (tensor_to weights
                       (Mat c (shard_rows rows (heads * head_size)
                                 (kv_heads * head_size) world_size r))))
                    (Some (tensor_to weights
                       (Vec (shard_rows bs (heads * head_size)
                               (kv_heads * head_size) world_size r))))
                    (quantize config))).
Proof.
  intros ws r heads kv_heads hs Htr Hq Hws Hr Hh Hkv Hhs Hdh Hdk Hw Hb Ho.
  assert (Hkvs : 0 < kv_heads `div` ws).
  { destruct Hdk as [k Hk]. rewrite Hk, Z.div_mul by lia. nia. }
  assert (Hnhs : 0 <= heads `div` ws) by (apply Z.div_pos; lia).
  assert (Hg : 0 <= (heads `div` ws) `div` (kv_heads `div` ws))
    by (apply Z.div_pos; lia).
  unfold Attn.init. fold heads ws kv_heads.
  rewrite (floordiv_ok _ heads) by lia. simpl. fold hs.
  unfold pow_neg_half. destruct (decide (hs = 0)); [lia|]. simpl.
  unfold mod_. destruct (decide (ws = 0)); [lia|]. simpl.
  apply Z.mod_divide in Hdh as Hmod; [|lia]. rewrite Hmod. simpl.
  rewrite !floordiv_ok by lia. simpl.
  unfold load_attention.
  destruct (decide (quantize config = Some "gptq"%string)); [done|].
  rewrite (row_layout_shard config prefix weights true (heads * hs)
             (kv_heads * hs) c rows bs); try done; try nia.
  2:{ destruct Hdh as [k ->]. exists (k * hs). lia. }
  2:{ destruct Hdk as [k ->]. exists (k * hs). lia. }
  simpl. rewrite Ho. simpl.
  unfold Attn.build_kv_head_mapping.
  rewrite floordiv_ok by lia. simpl.
  rewrite torch_arange_ok by lia. simpl.
  unfold repeat_interleave.
  destruct (Z.ltb_spec ((heads `div` ws) `div` (kv_heads `div` ws)) 0); [lia|].
  simpl. eexists. split; [reflexivity|]. simpl. done.
Qed.

Lemma attention_init_succeeds_witness :
  exists attn,
    Attn.init "attn" (Toy.config 4 2 8 None false)
      (Toy.weights (Toy.store 16 8) 1 2) = Ok attn
    /\ Attn.num_heads attn = 2
    /\ Attn.num_key_value_heads attn = 1.
Proof.
  edestruct (attention_init_succeeds "attn" (Toy.config 4 2 8 None false)
               (Toy.weights (Toy.store 16 8) 1 2))
    as (attn & Hinit & _ & Hnh & Hnkv & _);
    [reflexivity | done | reflexivity | split; [by vm_compute | reflexivity]
    | reflexivity | reflexivity | reflexivity | by exists 2 | by exists 1
    | reflexivity | reflexivity | vm_compute; reflexivity | ].
  exists attn. split; [exact Hinit|]. split; [exact Hnh | exact Hnkv].
Defined.
